(** * SelfBackendVerifier: the verification orchestrator of [sdk/core]

    A shallow embedding of [sdk/core/src/SelfBackendVerifier.ts]: the policy
    setters, the assembly of the [verifyAll] request and the interpretation
    of the response.  JavaScript values are a small inductive type, thrown
    exceptions are an explicit completion, and the three awaited contract
    calls are nodes of a finite interaction tree that is run against a
    description of the ledger. *)

From Stdlib Require Import ZArith QArith DecimalString DecimalPos DecimalZ.
From stdpp Require Import base strings list gmap.

Local Open Scope string_scope.
Set Warnings "-register-all".

(** ** JavaScript values *)

(** A JavaScript [number]: NaN, the two infinities, or a finite value, given
    by the rational it denotes (every finite double is one). *)
Inductive number : Type :=
| NaN
| Infinity (negative : bool)
| Finite (q : Q).

(** [x <= y] on numbers: false as soon as one side is NaN. *)
Definition Number_le (x y : number) : bool :=
  match x, y with
  | NaN, _ | _, NaN => false
  | Infinity true, _ => true
  | _, Infinity false => true
  | Infinity false, _ => false
  | _, Infinity true => false
  | Finite p, Finite q => Qle_bool p q
  end.

(** [x < y] on numbers. *)
Definition Number_lt (x y : number) : bool :=
  match x, y with
  | NaN, _ | _, NaN => false
  | Infinity false, _ => false
  | _, Infinity true => false
  | Infinity true, _ => true
  | _, Infinity false => true
  | Finite p, Finite q => negb (Qle_bool q p)
  end.

(** [x > y] is [y < x]. *)
Definition Number_gt (x y : number) : bool := Number_lt y x.

Definition Number_of_Z (z : Z) : number := Finite (inject_Z z).

(** Decimal digits of an integer, with a leading minus sign when negative. *)
Definition decimal (z : Z) : string := NilZero.string_of_int (Z.to_int z).

(** The values that flow through the verifier.  [JError] is an [Error]
    object, identified by its [name] and [message]. *)
Inductive JsVal : Type :=
| JUndefined
| JNull
| JBoolean (b : bool)
| JNumber (n : number)
| JBigInt (z : Z)
| JString (s : string)
| JArray (elems : list JsVal)
| JError (name message : string).

(** The outcome of evaluating an expression: a value, or a thrown value. *)
Inductive Completion (A : Type) : Type :=
| Return (a : A)
| Throw (e : JsVal).
Arguments Return {A} a.
Arguments Throw {A} e.

Definition Error (message : string) : JsVal := JError "Error" message.
Definition TypeError (message : string) : JsVal := JError "TypeError" message.

Definition is_nullish (v : JsVal) : bool :=
  match v with
  | JUndefined | JNull => true
  | _ => false
  end.

(** [s === v] where the left operand is a string: true exactly when [v] is a
    string with the same characters. *)
Definition strict_equals_string (s : string) (v : JsVal) : bool :=
  match v with
  | JString t => String.eqb s t
  | _ => false
  end.

(** [xs[i]] on an array: [undefined] past the end. *)
Definition array_get {A} (inj : A -> JsVal) (xs : list A) (i : nat) : JsVal :=
  match xs !! i with
  | Some x => inj x
  | None => JUndefined
  end.

(** [v[i]] on an arbitrary value: a TypeError on [undefined] and [null], the
    element of an array, the character of a string, [undefined] otherwise. *)
Definition get_elem (v : JsVal) (i : nat) : Completion JsVal :=
  match v with
  | JUndefined =>
      Throw (TypeError ("Cannot read properties of undefined (reading '"
                          ++ decimal (Z.of_nat i) ++ "')"))
  | JNull =>
      Throw (TypeError ("Cannot read properties of null (reading '"
                          ++ decimal (Z.of_nat i) ++ "')"))
  | JArray elems => Return (array_get id elems i)
  | JString s =>
      Return (match String.get i s with
              | Some ch => JString (String ch EmptyString)
              | None => JUndefined
              end)
  | _ => Return JUndefined
  end.

(** ** What the module imports

    The constants and helpers of [common/] that the file imports, and the
    parts of the language runtime that are not spelled out here, are taken
    as they come: any implementation of this interface will do. *)

(** [CIRCUIT_CONSTANTS]: positions in the public signals. *)
Module CircuitConstants.
Record t : Type := {
  VC_AND_DISCLOSE_SCOPE_INDEX : nat;
  VC_AND_DISCLOSE_ATTESTATION_ID_INDEX : nat;
  VC_AND_DISCLOSE_USER_IDENTIFIER_INDEX : nat;
  VC_AND_DISCLOSE_NULLIFIER_INDEX : nat;
  VC_AND_DISCLOSE_MERKLE_ROOT_INDEX : nat
}.
End CircuitConstants.

(** [revealedDataTypes]: the identifier of each disclosure field. *)
Module RevealedDataTypes.
Record t : Type := {
  issuing_state : nat;
  name : nat;
  passport_number : nat;
  nationality : nat;
  date_of_birth : nat;
  gender : nat;
  expiry_date : nat;
  older_than : nat;
  passport_no_ofac : nat;
  name_and_dob_ofac : nat;
  name_and_yob_ofac : nat
}.
End RevealedDataTypes.

Definition UserIdType : Type := string.
Definition Country3LetterCode : Type := string.

Class Runtime : Type := {
  (** [Number.prototype.toString] on the finite values that are not
      integers of magnitude at most 2^53. *)
  Number_toString_other : Q -> string;
  (** The [BigInt(...)] conversion. *)
  BigInt : JsVal -> Completion Z;
  hashEndpointWithScope : string -> string -> Completion string;
  castToUserIdentifier : Z -> UserIdType -> Completion string;
  packForbiddenCountriesList : list Country3LetterCode -> Completion JsVal;
  CIRCUIT_CONSTANTS : CircuitConstants.t;
  revealedDataTypes : RevealedDataTypes.t;
  REGISTRY_ADDRESS : string;
  VERIFYALL_ADDRESS : string;
  REGISTRY_ADDRESS_STAGING : string;
  VERIFYALL_ADDRESS_STAGING : string
}.

(** ** Records of the verifier *)

(** An optional check: [{ enabled, value }]. *)
Record Toggle (A : Type) : Type := { enabled : bool; value : A }.
Arguments enabled {A} _.
Arguments value {A} _.

(** An [ethers.Contract] handle: where it points and through which node. *)
Record Contract : Type := { target : string; rpcUrl : string }.

(** The [proof] argument of [verify]: an object with components a, b, c. *)
Module ProofPoints.
Record t : Type := { a : JsVal; b : JsVal; c : JsVal }.
End ProofPoints.

Module VcAndDiscloseProof.
Record t : Type := {
  a : JsVal;
  b : JsVal;
  c : JsVal;
  pubSignals : list string
}.
End VcAndDiscloseProof.

Module VcAndDiscloseHubProof.
Record t : Type := {
  olderThanEnabled : bool;
  olderThan : string;
  forbiddenCountriesEnabled : bool;
  forbiddenCountriesListPacked : JsVal;
  ofacEnabled : list bool;
  vcAndDiscloseProof : VcAndDiscloseProof.t
}.
End VcAndDiscloseHubProof.

(** What [verifyAll] resolves to: [result[0]] maps field identifiers to
    decoded values, [result[1]] is the validity flag, [result[2]] the error
    slot of the response. *)
Module VerifyAllResult.
Record t : Type := {
  result_0 : gmap nat JsVal;
  result_1 : bool;
  result_2 : JsVal
}.
End VerifyAllResult.

(** [result[0][k]]: [undefined] where the mapping has no entry. *)
Definition field (result : VerifyAllResult.t) (k : nat) : JsVal :=
  default JUndefined (VerifyAllResult.result_0 result !! k).

Module IsValidDetails.
Record t : Type := {
  isValidScope : bool;
  isValidAttestationId : bool;
  isValidProof : bool;
  isValidNationality : bool
}.
End IsValidDetails.

(** [{ proof, publicSignals }], the content of [proof.value]. *)
Module ProofValue.
Record t : Type := { proof : ProofPoints.t; publicSignals : list string }.
End ProofValue.

Module SelfVerificationResult.
Record t : Type := {
  isValid : bool;
  isValidDetails : IsValidDetails.t;
  userId : string;
  application : string;
  nullifier : JsVal;
  credentialSubject : gmap string JsVal;
  proof : ProofValue.t;
  error : JsVal
}.
End SelfVerificationResult.

(** The fields of the class. *)
Record SelfBackendVerifier : Type := {
  scope : string;
  attestationId : number;
  user_identifier_type : UserIdType;
  targetRootTimestamp : Toggle number;
  nationality : Toggle Country3LetterCode;
  minimumAge : Toggle string;
  excludedCountries : Toggle (list Country3LetterCode);
  passportNoOfac : bool;
  nameAndDobOfac : bool;
  nameAndYobOfac : bool;
  registryContract : Contract;
  verifyAllContract : Contract;
  mockPassport : bool
}.

(** ** Asynchronous computations

    An [async] body is a finite tree: it settles, or it performs one of the
    interactions of [verify] and goes on with what the world answers.  An
    awaited call answers with a completion, since the promise may reject. *)
Inductive Async (A : Type) : Type :=
| Resolve (r : A)
| Reject (e : JsVal)
| GetIdentityCommitmentMerkleRoot
    (registry : Contract) (k : Completion JsVal -> Async A)
| RootTimestamps
    (registry : Contract) (root : JsVal) (k : Completion JsVal -> Async A)
| VerifyAll
    (verifier : Contract) (timestamp : JsVal)
    (hubProof : VcAndDiscloseHubProof.t) (types : list nat)
    (k : Completion VerifyAllResult.t -> Async A)
| DateNow (k : string -> Async A).
Arguments Resolve {A} r.
Arguments Reject {A} e.
Arguments GetIdentityCommitmentMerkleRoot {A} registry k.
Arguments RootTimestamps {A} registry root k.
Arguments VerifyAll {A} verifier timestamp hubProof types k.
Arguments DateNow {A} k.

(** A synchronous step inside the body: a throw rejects the promise. *)
Definition eval {X A} (c : Completion X) (k : X -> Async A) : Async A :=
  match c with
  | Return x => k x
  | Throw e => Reject e
  end.

(** [await] outside any [try]: a rejection is rethrown. *)
Definition await {X A} (call : (Completion X -> Async A) -> Async A)
    (k : X -> Async A) : Async A :=
  call (fun r => eval r k).

(** [try { x = await call } catch (e) { return handler e }], then [k x]. *)
Definition try_await {X A} (call : (Completion X -> Async A) -> Async A)
    (handler : JsVal -> A) (k : X -> Async A) : Async A :=
  call (fun r =>
          match r with
          | Return x => k x
          | Throw e => Resolve (handler e)
          end).

Notation "'let!' x ':=' c 'in' k" := (eval c (fun x => k))
  (at level 10, x name, c at level 100, k at level 200).
Notation "'await!' x ':=' c 'in' k" := (await c (fun x => k))
  (at level 10, x name, c at level 100, k at level 200).

(** The ledger and the clock as one call of [verify] sees them. *)
Record World : Type := {
  getIdentityCommitmentMerkleRoot : Contract -> Completion JsVal;
  rootTimestamps : Contract -> JsVal -> Completion JsVal;
  verifyAll :
    Contract -> JsVal -> VcAndDiscloseHubProof.t -> list nat ->
    Completion VerifyAllResult.t;
  toISOString : string
}.

(** The interactions of a run, in the order they happened. *)
Inductive Event : Type :=
| CalledRoot (registry : Contract) (answer : Completion JsVal)
| CalledRootTimestamps
    (registry : Contract) (root : JsVal) (answer : Completion JsVal)
| CalledVerifyAll
    (verifier : Contract) (timestamp : JsVal)
    (hubProof : VcAndDiscloseHubProof.t) (types : list nat)
    (answer : Completion VerifyAllResult.t)
| ReadClock (iso : string).

(** Running a body in a world: the interactions and how the promise
    settles. *)
Fixpoint run {A} (w : World) (m : Async A) : list Event * Completion A :=
  match m with
  | Resolve r => ([], Return r)
  | Reject e => ([], Throw e)
  | GetIdentityCommitmentMerkleRoot registry k =>
      let answer := getIdentityCommitmentMerkleRoot w registry in
      let (events, settled) := run w (k answer) in
      (CalledRoot registry answer :: events, settled)
  | RootTimestamps registry root k =>
      let answer := rootTimestamps w registry root in
      let (events, settled) := run w (k answer) in
      (CalledRootTimestamps registry root answer :: events, settled)
  | VerifyAll verifier timestamp hubProof types k =>
      let answer := verifyAll w verifier timestamp hubProof types in
      let (events, settled) := run w (k answer) in
      (CalledVerifyAll verifier timestamp hubProof types answer :: events,
       settled)
  | DateNow k =>
      let (events, settled) := run w (k (toISOString w)) in
      (ReadClock (toISOString w) :: events, settled)
  end.

(** ** The class *)

Definition CELO_MAINNET_RPC_URL : string := "https://forno.celo.org".
Definition CELO_TESTNET_RPC_URL : string :=
  "https://alfajores-forno.celo-testnet.org".

(** [xs.push(x)]. *)
Definition push {A} (xs : list A) (x : A) : list A := xs ++ [x].

Section Verifier.
Context `{rt : Runtime}.

(** [n.toString()] on a number. *)
Definition Number_toString (x : number) : string :=
  match x with
  | NaN => "NaN"
  | Infinity false => "Infinity"
  | Infinity true => "-Infinity"
  | Finite q =>
      let n := (Qnum q / Z.pos (Qden q))%Z in
      if ((Qnum q mod Z.pos (Qden q) =? 0)%Z && (Z.abs n <=? 2 ^ 53)%Z)%bool
      then decimal n
      else Number_toString_other q
  end.

(** The string conversion of a value; an array joins its elements with
    commas, [undefined] and [null] elements giving the empty string. *)
Fixpoint ToString (v : JsVal) : string :=
  match v with
  | JUndefined => "undefined"
  | JNull => "null"
  | JBoolean true => "true"
  | JBoolean false => "false"
  | JNumber n => Number_toString n
  | JBigInt z => decimal z
  | JString s => s
  | JArray elems =>
      (fix join (xs : list JsVal) : string :=
         match xs with
         | [] => ""
         | x :: rest =>
             let sx := if is_nullish x then "" else ToString x in
             match rest with
             | [] => sx
             | _ :: _ => sx ++ "," ++ join rest
             end
         end) elems
  | JError name message =>
      if String.eqb name "" then message
      else if String.eqb message "" then name
      else name ++ ": " ++ message
  end.

(** [v.toString()]: the property read throws on [undefined] and [null]. *)
Definition toString (v : JsVal) : Completion string :=
  match v with
  | JUndefined =>
      Throw (TypeError
               "Cannot read properties of undefined (reading 'toString')")
  | JNull =>
      Throw (TypeError "Cannot read properties of null (reading 'toString')")
  | _ => Return (ToString v)
  end.

(** [new SelfBackendVerifier(scope, endpoint, user_identifier_type,
    mockPassport)]: the field initialisers, then the constructor body.  A
    caller that leaves out the last two arguments passes "uuid" and
    [false]. *)
Definition constructor (scope0 endpoint : string)
    (user_identifier_type0 : UserIdType) (mockPassport0 : bool) :
    Completion SelfBackendVerifier :=
  let rpcUrl0 :=
    if mockPassport0 then CELO_TESTNET_RPC_URL else CELO_MAINNET_RPC_URL in
  let registryAddress :=
    if mockPassport0 then REGISTRY_ADDRESS_STAGING else REGISTRY_ADDRESS in
  let verifyAllAddress :=
    if mockPassport0 then VERIFYALL_ADDRESS_STAGING else VERIFYALL_ADDRESS in
  match hashEndpointWithScope endpoint scope0 with
  | Throw e => Throw e
  | Return hashed =>
      Return {|
        scope := hashed;
        attestationId := Number_of_Z 1;
        user_identifier_type := user_identifier_type0;
        targetRootTimestamp := {| enabled := false; value := Number_of_Z 0 |};
        nationality := {| enabled := false; value := "" |};
        minimumAge := {| enabled := false; value := "18" |};
        excludedCountries := {| enabled := false; value := [] |};
        passportNoOfac := false;
        nameAndDobOfac := false;
        nameAndYobOfac := false;
        registryContract := {| target := registryAddress; rpcUrl := rpcUrl0 |};
        verifyAllContract :=
          {| target := verifyAllAddress; rpcUrl := rpcUrl0 |};
        mockPassport := mockPassport0
      |}
  end.

(** Assignments to one field of [this]. *)
Definition set_minimumAge (v : Toggle string) (self : SelfBackendVerifier) :
    SelfBackendVerifier :=
  {| scope := scope self;
     attestationId := attestationId self;
     user_identifier_type := user_identifier_type self;
     targetRootTimestamp := targetRootTimestamp self;
     nationality := nationality self;
     minimumAge := v;
     excludedCountries := excludedCountries self;
     passportNoOfac := passportNoOfac self;
     nameAndDobOfac := nameAndDobOfac self;
     nameAndYobOfac := nameAndYobOfac self;
     registryContract := registryContract self;
     verifyAllContract := verifyAllContract self;
     mockPassport := mockPassport self |}.

Definition set_nationality (v : Toggle Country3LetterCode)
    (self : SelfBackendVerifier) : SelfBackendVerifier :=
  {| scope := scope self;
     attestationId := attestationId self;
     user_identifier_type := user_identifier_type self;
     targetRootTimestamp := targetRootTimestamp self;
     nationality := v;
     minimumAge := minimumAge self;
     excludedCountries := excludedCountries self;
     passportNoOfac := passportNoOfac self;
     nameAndDobOfac := nameAndDobOfac self;
     nameAndYobOfac := nameAndYobOfac self;
     registryContract := registryContract self;
     verifyAllContract := verifyAllContract self;
     mockPassport := mockPassport self |}.

Definition set_excludedCountries (v : Toggle (list Country3LetterCode))
    (self : SelfBackendVerifier) : SelfBackendVerifier :=
  {| scope := scope self;
     attestationId := attestationId self;
     user_identifier_type := user_identifier_type self;
     targetRootTimestamp := targetRootTimestamp self;
     nationality := nationality self;
     minimumAge := minimumAge self;
     excludedCountries := v;
     passportNoOfac := passportNoOfac self;
     nameAndDobOfac := nameAndDobOfac self;
     nameAndYobOfac := nameAndYobOfac self;
     registryContract := registryContract self;
     verifyAllContract := verifyAllContract self;
     mockPassport := mockPassport self |}.

Definition set_passportNoOfac (v : bool) (self : SelfBackendVerifier) :
    SelfBackendVerifier :=
  {| scope := scope self;
     attestationId := attestationId self;
     user_identifier_type := user_identifier_type self;
     targetRootTimestamp := targetRootTimestamp self;
     nationality := nationality self;
     minimumAge := minimumAge self;
     excludedCountries := excludedCountries self;
     passportNoOfac := v;
     nameAndDobOfac := nameAndDobOfac self;
     nameAndYobOfac := nameAndYobOfac self;
     registryContract := registryContract self;
     verifyAllContract := verifyAllContract self;
     mockPassport := mockPassport self |}.

Definition set_nameAndDobOfac (v : bool) (self : SelfBackendVerifier) :
    SelfBackendVerifier :=
  {| scope := scope self;
     attestationId := attestationId self;
     user_identifier_type := user_identifier_type self;
     targetRootTimestamp := targetRootTimestamp self;
     nationality := nationality self;
     minimumAge := minimumAge self;
     excludedCountries := excludedCountries self;
     passportNoOfac := passportNoOfac self;
     nameAndDobOfac := v;
     nameAndYobOfac := nameAndYobOfac self;
     registryContract := registryContract self;
     verifyAllContract := verifyAllContract self;
     mockPassport := mockPassport self |}.

Definition set_nameAndYobOfac (v : bool) (self : SelfBackendVerifier) :
    SelfBackendVerifier :=
  {| scope := scope self;
     attestationId := attestationId self;
     user_identifier_type := user_identifier_type self;
     targetRootTimestamp := targetRootTimestamp self;
     nationality := nationality self;
     minimumAge := minimumAge self;
     excludedCountries := excludedCountries self;
     passportNoOfac := passportNoOfac self;
     nameAndDobOfac := nameAndDobOfac self;
     nameAndYobOfac := v;
     registryContract := registryContract self;
     verifyAllContract := verifyAllContract self;
     mockPassport := mockPassport self |}.

(** The fluent setters return [this]: here, the updated object. *)
Definition setMinimumAge (age : number) (self : SelfBackendVerifier) :
    Completion SelfBackendVerifier :=
  if Number_le age (Number_of_Z 0) then
    Throw (Error "Minimum age must be positive")
  else if Number_gt age (Number_of_Z 100) then
    Throw (Error "Minimum age must be at most 100 years old")
  else
    Return (set_minimumAge
              {| enabled := true; value := Number_toString age |} self).

Definition setNationality (country : Country3LetterCode)
    (self : SelfBackendVerifier) : SelfBackendVerifier :=
  set_nationality {| enabled := true; value := country |} self.

Definition excludeCountries (countries : list Country3LetterCode)
    (self : SelfBackendVerifier) : Completion SelfBackendVerifier :=
  if (40 <? length countries)%nat then
    Throw (Error "Number of excluded countries cannot exceed 40")
  else
    Return (set_excludedCountries
              {| enabled := true; value := countries |} self).

Definition enablePassportNoOfacCheck (self : SelfBackendVerifier) :
    SelfBackendVerifier :=
  set_passportNoOfac true self.

Definition enableNameAndDobOfacCheck (self : SelfBackendVerifier) :
    SelfBackendVerifier :=
  set_nameAndDobOfac true self.

Definition enableNameAndYobOfacCheck (self : SelfBackendVerifier) :
    SelfBackendVerifier :=
  set_nameAndYobOfac true self.

(** [publicSignals[i]]. *)
Definition signal (publicSignals : list string) (i : nat) : JsVal :=
  array_get JString publicSignals i.

(** [proof.b[i][j]]. *)
Definition b_at (proof : ProofPoints.t) (i j : nat) : Completion JsVal :=
  match get_elem (ProofPoints.b proof) i with
  | Throw e => Throw e
  | Return row => get_elem row j
  end.

(** *** [verify(proof, publicSignals)]

    The body is given in its parts, in the order of the source: the payload
    (lines 87-102), the requested fields (104-128), the outcome of the catch
    block (142-161), what follows the call (164-208), and the body that
    chains them. *)

(** [vcAndDiscloseHubProof], from the packed list and the four elements
    read from [proof.b]. *)
Definition vcAndDiscloseHubProof (self : SelfBackendVerifier)
    (forbiddenCountriesListPacked : JsVal) (proof : ProofPoints.t)
    (b01 b00 b11 b10 : JsVal) (publicSignals : list string) :
    VcAndDiscloseHubProof.t :=
  {| VcAndDiscloseHubProof.olderThanEnabled := enabled (minimumAge self);
     VcAndDiscloseHubProof.olderThan := value (minimumAge self);
     VcAndDiscloseHubProof.forbiddenCountriesEnabled :=
       enabled (excludedCountries self);
     VcAndDiscloseHubProof.forbiddenCountriesListPacked :=
       forbiddenCountriesListPacked;
     VcAndDiscloseHubProof.ofacEnabled :=
       [passportNoOfac self; nameAndDobOfac self; nameAndYobOfac self];
     VcAndDiscloseHubProof.vcAndDiscloseProof :=
       {| VcAndDiscloseProof.a := ProofPoints.a proof;
          VcAndDiscloseProof.b :=
            JArray [JArray [b01; b00]; JArray [b11; b10]];
          VcAndDiscloseProof.c := ProofPoints.c proof;
          VcAndDiscloseProof.pubSignals := publicSignals |} |}.

(** [types], after the four conditional pushes. *)
Definition types (self : SelfBackendVerifier) : list nat :=
  let types :=
    [RevealedDataTypes.issuing_state revealedDataTypes;
     RevealedDataTypes.name revealedDataTypes;
     RevealedDataTypes.passport_number revealedDataTypes;
     RevealedDataTypes.nationality revealedDataTypes;
     RevealedDataTypes.date_of_birth revealedDataTypes;
     RevealedDataTypes.gender revealedDataTypes;
     RevealedDataTypes.expiry_date revealedDataTypes] in
  let types :=
    if enabled (minimumAge self)
    then push types (RevealedDataTypes.older_than revealedDataTypes)
    else types in
  let types :=
    if passportNoOfac self
    then push types (RevealedDataTypes.passport_no_ofac revealedDataTypes)
    else types in
  let types :=
    if nameAndDobOfac self
    then push types (RevealedDataTypes.name_and_dob_ofac revealedDataTypes)
    else types in
  let types :=
    if nameAndYobOfac self
    then push types (RevealedDataTypes.name_and_yob_ofac revealedDataTypes)
    else types in
  types.

(** What the [catch] block returns. *)
Definition caught (self : SelfBackendVerifier) (proof : ProofPoints.t)
    (publicSignals : list string) (user_identifier : string)
    (error : JsVal) : SelfVerificationResult.t :=
  {| SelfVerificationResult.isValid := false;
     SelfVerificationResult.isValidDetails :=
       {| IsValidDetails.isValidScope := false;
          IsValidDetails.isValidAttestationId := false;
          IsValidDetails.isValidProof := false;
          IsValidDetails.isValidNationality := false |};
     SelfVerificationResult.userId := user_identifier;
     SelfVerificationResult.application := scope self;
     SelfVerificationResult.nullifier :=
       signal publicSignals
         (CircuitConstants.VC_AND_DISCLOSE_NULLIFIER_INDEX CIRCUIT_CONSTANTS);
     SelfVerificationResult.credentialSubject := ∅;
     SelfVerificationResult.proof :=
       {| ProofValue.proof := proof;
          ProofValue.publicSignals := publicSignals |};
     SelfVerificationResult.error := error |}.

(** The statements after the [try]: the nationality check, the credential
    subject and the attestation. *)
Definition attest (self : SelfBackendVerifier) (proof : ProofPoints.t)
    (publicSignals : list string) (isValidScope isValidAttestationId : bool)
    (user_identifier : string) (result : VerifyAllResult.t) :
    Async SelfVerificationResult.t :=
  let isValidNationality :=
    if enabled (nationality self)
    then strict_equals_string (value (nationality self))
           (field result (RevealedDataTypes.nationality revealedDataTypes))
    else true in
  DateNow (fun current_date =>
  let! older_than :=
    toString (field result (RevealedDataTypes.older_than revealedDataTypes)) in
  let! passport_no_ofac :=
    toString
      (field result (RevealedDataTypes.passport_no_ofac revealedDataTypes)) in
  let! name_and_dob_ofac :=
    toString
      (field result (RevealedDataTypes.name_and_dob_ofac revealedDataTypes)) in
  let! name_and_yob_ofac :=
    toString
      (field result (RevealedDataTypes.name_and_yob_ofac revealedDataTypes)) in
  let credentialSubject : gmap string JsVal :=
    list_to_map
      [("merkle_root",
        signal publicSignals
          (CircuitConstants.VC_AND_DISCLOSE_MERKLE_ROOT_INDEX
             CIRCUIT_CONSTANTS));
       ("attestation_id", JString (Number_toString (attestationId self)));
       ("current_date", JString current_date);
       ("issuing_state",
        field result (RevealedDataTypes.issuing_state revealedDataTypes));
       ("name", field result (RevealedDataTypes.name revealedDataTypes));
       ("passport_number",
        field result (RevealedDataTypes.passport_number revealedDataTypes));
       ("nationality",
        field result (RevealedDataTypes.nationality revealedDataTypes));
       ("date_of_birth",
        field result (RevealedDataTypes.date_of_birth revealedDataTypes));
       ("gender", field result (RevealedDataTypes.gender revealedDataTypes));
       ("expiry_date",
        field result (RevealedDataTypes.expiry_date revealedDataTypes));
       ("older_than", JString older_than);
       ("passport_no_ofac", JBoolean (String.eqb passport_no_ofac "1"));
       ("name_and_dob_ofac", JBoolean (String.eqb name_and_dob_ofac "1"));
       ("name_and_yob_ofac", JBoolean (String.eqb name_and_yob_ofac "1"))] in
  Resolve
    {| SelfVerificationResult.isValid :=
         VerifyAllResult.result_1 result && isValidScope
         && isValidAttestationId && isValidNationality;
       SelfVerificationResult.isValidDetails :=
         {| IsValidDetails.isValidScope := isValidScope;
            IsValidDetails.isValidAttestationId := isValidAttestationId;
            IsValidDetails.isValidProof := VerifyAllResult.result_1 result;
            IsValidDetails.isValidNationality := isValidNationality |};
       SelfVerificationResult.userId := user_identifier;
       SelfVerificationResult.application := scope self;
       SelfVerificationResult.nullifier :=
         signal publicSignals
           (CircuitConstants.VC_AND_DISCLOSE_NULLIFIER_INDEX
              CIRCUIT_CONSTANTS);
       SelfVerificationResult.credentialSubject := credentialSubject;
       SelfVerificationResult.proof :=
         {| ProofValue.proof := proof;
            ProofValue.publicSignals := publicSignals |};
       SelfVerificationResult.error := VerifyAllResult.result_2 result |}).

Definition verify (self : SelfBackendVerifier) (proof : ProofPoints.t)
    (publicSignals : list string) : Async SelfVerificationResult.t :=
  let! forbiddenCountriesListPacked :=
    packForbiddenCountriesList (value (excludedCountries self)) in
  let isValidScope :=
    strict_equals_string (scope self)
      (signal publicSignals
         (CircuitConstants.VC_AND_DISCLOSE_SCOPE_INDEX CIRCUIT_CONSTANTS)) in
  let isValidAttestationId :=
    strict_equals_string (Number_toString (attestationId self))
      (signal publicSignals
         (CircuitConstants.VC_AND_DISCLOSE_ATTESTATION_ID_INDEX
            CIRCUIT_CONSTANTS)) in
  let! b01 := b_at proof 0 1 in
  let! b00 := b_at proof 0 0 in
  let! b11 := b_at proof 1 1 in
  let! b10 := b_at proof 1 0 in
  await! currentRoot :=
    GetIdentityCommitmentMerkleRoot (registryContract self) in
  await! timestamp := RootTimestamps (registryContract self) currentRoot in
  let! identifier :=
    BigInt
      (signal publicSignals
         (CircuitConstants.VC_AND_DISCLOSE_USER_IDENTIFIER_INDEX
            CIRCUIT_CONSTANTS)) in
  let! user_identifier :=
    castToUserIdentifier identifier (user_identifier_type self) in
  try_await
    (VerifyAll (verifyAllContract self) timestamp
       (vcAndDiscloseHubProof self forbiddenCountriesListPacked proof
          b01 b00 b11 b10 publicSignals)
       (types self))
    (caught self proof publicSignals user_identifier)
    (attest self proof publicSignals isValidScope isValidAttestationId
       user_identifier).

End Verifier.

(** ** What a run is measured against *)

Section Statements.
Context `{rt : Runtime}.

(** The values [verify] has in hand when it reaches the call of the
    Verifier. *)
Record Prepared : Type := {
  forbiddenCountriesListPacked : JsVal;
  b01 : JsVal;
  b00 : JsVal;
  b11 : JsVal;
  b10 : JsVal;
  currentRoot : JsVal;
  timestamp : JsVal;
  identifier : Z;
  user_identifier : string
}.

(** Every step before the call of the Verifier succeeds, with these
    values. *)
Definition prepares (w : World) (self : SelfBackendVerifier)
    (proof : ProofPoints.t) (publicSignals : list string) (p : Prepared) :
    Prop :=
  packForbiddenCountriesList (value (excludedCountries self))
  = Return (forbiddenCountriesListPacked p)
  /\ b_at proof 0 1 = Return (b01 p)
  /\ b_at proof 0 0 = Return (b00 p)
  /\ b_at proof 1 1 = Return (b11 p)
  /\ b_at proof 1 0 = Return (b10 p)
  /\ getIdentityCommitmentMerkleRoot w (registryContract self)
     = Return (currentRoot p)
  /\ rootTimestamps w (registryContract self) (currentRoot p)
     = Return (timestamp p)
  /\ BigInt
       (signal publicSignals
          (CircuitConstants.VC_AND_DISCLOSE_USER_IDENTIFIER_INDEX
             CIRCUIT_CONSTANTS))
     = Return (identifier p)
  /\ castToUserIdentifier (identifier p) (user_identifier_type self)
     = Return (user_identifier p).

(** The seven fields that are always requested, in the order of the
    source. *)
Definition mandatory_fields : list nat :=
  [RevealedDataTypes.issuing_state revealedDataTypes;
   RevealedDataTypes.name revealedDataTypes;
   RevealedDataTypes.passport_number revealedDataTypes;
   RevealedDataTypes.nationality revealedDataTypes;
   RevealedDataTypes.date_of_birth revealedDataTypes;
   RevealedDataTypes.gender revealedDataTypes;
   RevealedDataTypes.expiry_date revealedDataTypes].

(** The list of requested fields as the specification words it: the
    mandatory fields, then each optional field iff its flag is set. *)
Definition requested_fields (age passportNo nameDob nameYob : bool) :
    list nat :=
  mandatory_fields
  ++ (if age then [RevealedDataTypes.older_than revealedDataTypes] else [])
  ++ (if passportNo
      then [RevealedDataTypes.passport_no_ofac revealedDataTypes] else [])
  ++ (if nameDob
      then [RevealedDataTypes.name_and_dob_ofac revealedDataTypes] else [])
  ++ (if nameYob
      then [RevealedDataTypes.name_and_yob_ofac revealedDataTypes] else []).

(** The four entries of the response that the decoding converts with
    [toString] are all neither [undefined] nor [null]. *)
Definition decodable (result : VerifyAllResult.t) : Prop :=
  is_nullish (field result (RevealedDataTypes.older_than revealedDataTypes))
  = false
  /\ is_nullish
       (field result (RevealedDataTypes.passport_no_ofac revealedDataTypes))
     = false
  /\ is_nullish
       (field result (RevealedDataTypes.name_and_dob_ofac revealedDataTypes))
     = false
  /\ is_nullish
       (field result (RevealedDataTypes.name_and_yob_ofac revealedDataTypes))
     = false.

(** Two verifiers that differ at most in one named field. *)
Definition same_but_minimumAge (s s' : SelfBackendVerifier) : Prop :=
  scope s' = scope s
  /\ attestationId s' = attestationId s
  /\ user_identifier_type s' = user_identifier_type s
  /\ targetRootTimestamp s' = targetRootTimestamp s
  /\ nationality s' = nationality s
  /\ excludedCountries s' = excludedCountries s
  /\ passportNoOfac s' = passportNoOfac s
  /\ nameAndDobOfac s' = nameAndDobOfac s
  /\ nameAndYobOfac s' = nameAndYobOfac s
  /\ registryContract s' = registryContract s
  /\ verifyAllContract s' = verifyAllContract s
  /\ mockPassport s' = mockPassport s.

Definition same_but_excludedCountries (s s' : SelfBackendVerifier) : Prop :=
  scope s' = scope s
  /\ attestationId s' = attestationId s
  /\ user_identifier_type s' = user_identifier_type s
  /\ targetRootTimestamp s' = targetRootTimestamp s
  /\ nationality s' = nationality s
  /\ minimumAge s' = minimumAge s
  /\ passportNoOfac s' = passportNoOfac s
  /\ nameAndDobOfac s' = nameAndDobOfac s
  /\ nameAndYobOfac s' = nameAndYobOfac s
  /\ registryContract s' = registryContract s
  /\ verifyAllContract s' = verifyAllContract s
  /\ mockPassport s' = mockPassport s.

(** Everything but the three OFAC flags. *)
Definition same_but_ofac (s s' : SelfBackendVerifier) : Prop :=
  scope s' = scope s
  /\ attestationId s' = attestationId s
  /\ user_identifier_type s' = user_identifier_type s
  /\ targetRootTimestamp s' = targetRootTimestamp s
  /\ nationality s' = nationality s
  /\ minimumAge s' = minimumAge s
  /\ excludedCountries s' = excludedCountries s
  /\ registryContract s' = registryContract s
  /\ verifyAllContract s' = verifyAllContract s
  /\ mockPassport s' = mockPassport s.

End Statements.

(** ** Sequences of setter calls *)

Section Configuration.
Context `{rt : Runtime}.

(** One call of a setter of the fluent interface, with its arguments. *)
Inductive SetterCall : Type :=
| CallSetMinimumAge (age : number)
| CallSetNationality (country : Country3LetterCode)
| CallExcludeCountries (countries : list Country3LetterCode)
| CallEnablePassportNoOfacCheck
| CallEnableNameAndDobOfacCheck
| CallEnableNameAndYobOfacCheck.

(** Which setter a call is for. *)
Definition setter_index (c : SetterCall) : nat :=
  match c with
  | CallSetMinimumAge _ => 0
  | CallSetNationality _ => 1
  | CallExcludeCountries _ => 2
  | CallEnablePassportNoOfacCheck => 3
  | CallEnableNameAndDobOfacCheck => 4
  | CallEnableNameAndYobOfacCheck => 5
  end.

Definition call (c : SetterCall) (self : SelfBackendVerifier) :
    Completion SelfBackendVerifier :=
  match c with
  | CallSetMinimumAge age => setMinimumAge age self
  | CallSetNationality country => Return (setNationality country self)
  | CallExcludeCountries countries => excludeCountries countries self
  | CallEnablePassportNoOfacCheck => Return (enablePassportNoOfacCheck self)
  | CallEnableNameAndDobOfacCheck => Return (enableNameAndDobOfacCheck self)
  | CallEnableNameAndYobOfacCheck => Return (enableNameAndYobOfacCheck self)
  end.

(** The object after a call: in the two setters that throw, the [throw]
    comes before the assignment, so the object is then as it was. *)
Definition after (c : SetterCall) (self : SelfBackendVerifier) :
    SelfBackendVerifier :=
  match call c self with
  | Return self' => self'
  | Throw _ => self
  end.

(** The object after a sequence of calls, first call first. *)
Definition configure (calls : list SetterCall) (self : SelfBackendVerifier) :
    SelfBackendVerifier :=
  foldl (fun s c => after c s) self calls.

(** The identifiers of the four optional fields whose flag is set. *)
Definition enabled_flags (hub : VcAndDiscloseHubProof.t) : nat :=
  length
    (filter (fun b : bool => b = true)
       (VcAndDiscloseHubProof.olderThanEnabled hub
        :: VcAndDiscloseHubProof.ofacEnabled hub)).

(** The keys of the credential subject, in the order of the source. *)
Definition credential_subject_keys : list string :=
  ["merkle_root"; "attestation_id"; "current_date"; "issuing_state"; "name";
   "passport_number"; "nationality"; "date_of_birth"; "gender";
   "expiry_date"; "older_than"; "passport_no_ofac"; "name_and_dob_ofac";
   "name_and_yob_ofac"].

(** An event is a contract call made on the contracts of [self]. *)
Definition on_contracts_of (self : SelfBackendVerifier) (ev : Event) : Prop :=
  match ev with
  | CalledRoot registry _ => registry = registryContract self
  | CalledRootTimestamps registry _ _ => registry = registryContract self
  | CalledVerifyAll verifier _ _ _ _ => verifier = verifyAllContract self
  | ReadClock _ => True
  end.

End Configuration.

(** ** A concrete runtime and ledger

    One implementation of the interface above, with the positions of the
    disclosure circuit and the identifiers 0 to 10 for the fields, and a few
    ledgers: used to run the definitions on actual inputs. *)
Module Sample.

Definition circuit_constants : CircuitConstants.t :=
  {| CircuitConstants.VC_AND_DISCLOSE_SCOPE_INDEX := 19;
     CircuitConstants.VC_AND_DISCLOSE_ATTESTATION_ID_INDEX := 8;
     CircuitConstants.VC_AND_DISCLOSE_USER_IDENTIFIER_INDEX := 20;
     CircuitConstants.VC_AND_DISCLOSE_NULLIFIER_INDEX := 7;
     CircuitConstants.VC_AND_DISCLOSE_MERKLE_ROOT_INDEX := 9 |}.

Definition revealed_data_types : RevealedDataTypes.t :=
  {| RevealedDataTypes.issuing_state := 0;
     RevealedDataTypes.name := 1;
     RevealedDataTypes.passport_number := 2;
     RevealedDataTypes.nationality := 3;
     RevealedDataTypes.date_of_birth := 4;
     RevealedDataTypes.gender := 5;
     RevealedDataTypes.expiry_date := 6;
     RevealedDataTypes.older_than := 7;
     RevealedDataTypes.passport_no_ofac := 8;
     RevealedDataTypes.name_and_dob_ofac := 9;
     RevealedDataTypes.name_and_yob_ofac := 10 |}.

(** [BigInt] on a string of decimal digits; anything else is refused. *)
Definition parse_BigInt (v : JsVal) : Completion Z :=
  match v with
  | JString s =>
      match NilZero.int_of_string s with
      | Some d => Return (Z.of_int d)
      | None =>
          Throw (JError "SyntaxError"
                   ("Cannot convert " ++ s ++ " to a BigInt"))
      end
  | _ => Throw (TypeError "Cannot convert value to a BigInt")
  end.

(** A packer that accepts three-letter codes only. *)
Definition pack (countries : list Country3LetterCode) : Completion JsVal :=
  if forallb (fun code => (String.length code =? 3)%nat) countries
  then Return (JArray (JString <$> countries))
  else Throw (Error "Invalid country code")%string.

(** This runtime prints whole numbers only: the other finite values are
    given the empty string. *)
Definition runtime : Runtime :=
  {| Number_toString_other := fun _ => "";
     BigInt := parse_BigInt;
     hashEndpointWithScope := fun endpoint scope0 =>
       Return (decimal (Z.of_nat (String.length (endpoint ++ scope0))));
     castToUserIdentifier := fun identifier _ => Return (decimal identifier);
     packForbiddenCountriesList := pack;
     CIRCUIT_CONSTANTS := circuit_constants;
     revealedDataTypes := revealed_data_types;
     REGISTRY_ADDRESS := "0xregistry";
     VERIFYALL_ADDRESS := "0xverifyall";
     REGISTRY_ADDRESS_STAGING := "0xregistry-staging";
     VERIFYALL_ADDRESS_STAGING := "0xverifyall-staging" |}.

(** The verifier that [new SelfBackendVerifier("my-app",
    "https://example.org/api/verify")] builds: the scope hash is "36". *)
Definition verifier : SelfBackendVerifier :=
  {| scope := "36";
     attestationId := Number_of_Z 1;
     user_identifier_type := "uuid";
     targetRootTimestamp := {| enabled := false; value := Number_of_Z 0 |};
     nationality := {| enabled := false; value := "" |};
     minimumAge := {| enabled := false; value := "18" |};
     excludedCountries := {| enabled := false; value := [] |};
     passportNoOfac := false;
     nameAndDobOfac := false;
     nameAndYobOfac := false;
     registryContract :=
       {| target := "0xregistry"; rpcUrl := CELO_MAINNET_RPC_URL |};
     verifyAllContract :=
       {| target := "0xverifyall"; rpcUrl := CELO_MAINNET_RPC_URL |};
     mockPassport := false |}.

Definition proof : ProofPoints.t :=
  {| ProofPoints.a := JArray [JString "1"; JString "2"];
     ProofPoints.b :=
       JArray [JArray [JString "3"; JString "4"];
               JArray [JString "5"; JString "6"]];
     ProofPoints.c := JArray [JString "7"; JString "8"] |}.

(** Twenty-one public signals: nullifier 555 at 7, attestation id 1 at 8,
    merkle root 999 at 9, scope 36 at 19, user identifier 42 at 20. *)
Definition publicSignals : list string :=
  ["0"; "0"; "0"; "0"; "0"; "0"; "0"; "555"; "1"; "999"; "0"; "0"; "0"; "0";
   "0"; "0"; "0"; "0"; "0"; "36"; "42"].

(** The decoded fields of a French passport, with all eleven entries. *)
Definition revealed : gmap nat JsVal :=
  list_to_map
    [(0, JString "FRA"); (1, JString "ANNE MARTIN"); (2, JString "12AB34567");
     (3, JString "FRA"); (4, JString "01-01-90"); (5, JString "F");
     (6, JString "01-01-30"); (7, JBigInt 18); (8, JBigInt 1);
     (9, JBigInt 0); (10, JBigInt 1)]%nat.

Definition response : VerifyAllResult.t :=
  {| VerifyAllResult.result_0 := revealed;
     VerifyAllResult.result_1 := true;
     VerifyAllResult.result_2 := JString "" |}.

(** The same response without the entries for older-than and OFAC. *)
Definition response_mandatory_only : VerifyAllResult.t :=
  {| VerifyAllResult.result_0 :=
       list_to_map
         [(0, JString "FRA"); (1, JString "ANNE MARTIN");
          (2, JString "12AB34567"); (3, JString "FRA");
          (4, JString "01-01-90"); (5, JString "F");
          (6, JString "01-01-30")]%nat;
     VerifyAllResult.result_1 := true;
     VerifyAllResult.result_2 := JString "" |}.

Definition ledger (answer : Completion VerifyAllResult.t) : World :=
  {| getIdentityCommitmentMerkleRoot := fun _ => Return (JBigInt 999);
     rootTimestamps := fun _ _ => Return (JBigInt 1700000000);
     verifyAll := fun _ _ _ _ => answer;
     toISOString := "2025-01-01T00:00:00.000Z" |}.

Definition world : World := ledger (Return response).

Definition reverted : JsVal := Error "execution reverted".

Definition world_reverting : World := ledger (Throw reverted).

Definition unreachable : JsVal := Error "could not detect network".

Definition world_without_root : World :=
  {| getIdentityCommitmentMerkleRoot := fun _ => Throw unreachable;
     rootTimestamps := fun _ _ => Return (JBigInt 1700000000);
     verifyAll := fun _ _ _ _ => Return response;
     toISOString := "2025-01-01T00:00:00.000Z" |}.

Definition world_without_timestamp : World :=
  {| getIdentityCommitmentMerkleRoot := fun _ => Return (JBigInt 999);
     rootTimestamps := fun _ _ => Throw unreachable;
     verifyAll := fun _ _ _ _ => Return response;
     toISOString := "2025-01-01T00:00:00.000Z" |}.

Definition world_mandatory_only : World :=
  ledger (Return response_mandatory_only).

(** The verifier a chain of setters leaves, [verifier] itself if one of
    them throws. *)
Definition configured (c : Completion SelfBackendVerifier) :
    SelfBackendVerifier :=
  match c with
  | Return self => self
  | Throw _ => verifier
  end.

(** Minimum age 18 and the passport-number OFAC check. *)
Definition verifier_age_ofac : SelfBackendVerifier :=
  enablePassportNoOfacCheck
    (configured (setMinimumAge (rt := runtime) (Number_of_Z 18) verifier)).

(** Nationality required to be USA. *)
Definition verifier_usa : SelfBackendVerifier := setNationality "USA" verifier.

(** An exclusion list that the packer refuses. *)
Definition verifier_bad_code : SelfBackendVerifier :=
  configured (excludeCountries ["FRANCE"] verifier).

(** The same signals with another scope at position 19. *)
Definition publicSignals_other_scope : list string :=
  <[19 := "63"]> publicSignals.

(** The payload [verify] sends for [proof] and the given signals under a
    policy without excluded countries. *)
Definition payload_for (self : SelfBackendVerifier) (signals : list string) :
    VcAndDiscloseHubProof.t :=
  vcAndDiscloseHubProof self (JArray []) proof
    (JString "4") (JString "3") (JString "6") (JString "5") signals.

Definition payload (self : SelfBackendVerifier) : VcAndDiscloseHubProof.t :=
  payload_for self publicSignals.

(** The attestation expected for [verifier] in [world]. *)
Definition attestation : SelfVerificationResult.t :=
  {| SelfVerificationResult.isValid := true;
     SelfVerificationResult.isValidDetails :=
       {| IsValidDetails.isValidScope := true;
          IsValidDetails.isValidAttestationId := true;
          IsValidDetails.isValidProof := true;
          IsValidDetails.isValidNationality := true |};
     SelfVerificationResult.userId := "42";
     SelfVerificationResult.application := "36";
     SelfVerificationResult.nullifier := JString "555";
     SelfVerificationResult.credentialSubject :=
       list_to_map
         [("merkle_root", JString "999");
          ("attestation_id", JString "1");
          ("current_date", JString "2025-01-01T00:00:00.000Z");
          ("issuing_state", JString "FRA");
          ("name", JString "ANNE MARTIN");
          ("passport_number", JString "12AB34567");
          ("nationality", JString "FRA");
          ("date_of_birth", JString "01-01-90");
          ("gender", JString "F");
          ("expiry_date", JString "01-01-30");
          ("older_than", JString "18");
          ("passport_no_ofac", JBoolean true);
          ("name_and_dob_ofac", JBoolean false);
          ("name_and_yob_ofac", JBoolean true)];
     SelfVerificationResult.proof :=
       {| ProofValue.proof := proof;
          ProofValue.publicSignals := publicSignals |};
     SelfVerificationResult.error := JString "" |}.

(** The same attestation when the nationality check fails. *)
Definition attestation_wrong_nationality : SelfVerificationResult.t :=
  {| SelfVerificationResult.isValid := false;
     SelfVerificationResult.isValidDetails :=
       {| IsValidDetails.isValidScope := true;
          IsValidDetails.isValidAttestationId := true;
          IsValidDetails.isValidProof := true;
          IsValidDetails.isValidNationality := false |};
     SelfVerificationResult.userId :=
       SelfVerificationResult.userId attestation;
     SelfVerificationResult.application :=
       SelfVerificationResult.application attestation;
     SelfVerificationResult.nullifier :=
       SelfVerificationResult.nullifier attestation;
     SelfVerificationResult.credentialSubject :=
       SelfVerificationResult.credentialSubject attestation;
     SelfVerificationResult.proof := SelfVerificationResult.proof attestation;
     SelfVerificationResult.error := SelfVerificationResult.error attestation
  |}.

(** The same attestation when the scope of the signals is another one. *)
Definition attestation_wrong_scope : SelfVerificationResult.t :=
  {| SelfVerificationResult.isValid := false;
     SelfVerificationResult.isValidDetails :=
       {| IsValidDetails.isValidScope := false;
          IsValidDetails.isValidAttestationId := true;
          IsValidDetails.isValidProof := true;
          IsValidDetails.isValidNationality := true |};
     SelfVerificationResult.userId :=
       SelfVerificationResult.userId attestation;
     SelfVerificationResult.application :=
       SelfVerificationResult.application attestation;
     SelfVerificationResult.nullifier :=
       SelfVerificationResult.nullifier attestation;
     SelfVerificationResult.credentialSubject :=
       SelfVerificationResult.credentialSubject attestation;
     SelfVerificationResult.proof :=
       {| ProofValue.proof := proof;
          ProofValue.publicSignals := publicSignals_other_scope |};
     SelfVerificationResult.error := SelfVerificationResult.error attestation
  |}.

(** Signals whose user identifier is not a number. *)
Definition publicSignals_bad_user : list string :=
  <[20 := "not-a-number"]> publicSignals.

(** A proof whose [b] has one row only, and one whose rows have one element
    each. *)
Definition proof_one_row : ProofPoints.t :=
  {| ProofPoints.a := ProofPoints.a proof;
     ProofPoints.b := JArray [JArray [JString "3"; JString "4"]];
     ProofPoints.c := ProofPoints.c proof |}.

Definition proof_short_rows : ProofPoints.t :=
  {| ProofPoints.a := ProofPoints.a proof;
     ProofPoints.b := JArray [JArray [JString "3"]; JArray [JString "5"]];
     ProofPoints.c := ProofPoints.c proof |}.

(** The verifier built for the staging network. *)
Definition verifier_staging : SelfBackendVerifier :=
  {| scope := "36";
     attestationId := Number_of_Z 1;
     user_identifier_type := "uuid";
     targetRootTimestamp := {| enabled := false; value := Number_of_Z 0 |};
     nationality := {| enabled := false; value := "" |};
     minimumAge := {| enabled := false; value := "18" |};
     excludedCountries := {| enabled := false; value := [] |};
     passportNoOfac := false;
     nameAndDobOfac := false;
     nameAndYobOfac := false;
     registryContract :=
       {| target := "0xregistry-staging"; rpcUrl := CELO_TESTNET_RPC_URL |};
     verifyAllContract :=
       {| target := "0xverifyall-staging"; rpcUrl := CELO_TESTNET_RPC_URL |};
     mockPassport := true |}.

(** A sequence of calls with two refused ones. *)
Definition calls : list SetterCall :=
  [CallExcludeCountries (replicate 41 "FRA");
   CallExcludeCountries ["FRA"; "DEU"];
   CallSetMinimumAge (Number_of_Z 200);
   CallSetMinimumAge (Number_of_Z 21);
   CallSetNationality "USA";
   CallEnableNameAndYobOfacCheck].

End Sample.

(** ** Properties *)

Section Properties.
Context `{rt : Runtime}.

(** *** Values *)

Lemma strict_equals_string_true (s : string) (v : JsVal) :
  strict_equals_string s v = true <-> v = JString s.
Proof.
  destruct v; simpl; try (split; [discriminate | congruence]).
  rewrite String.eqb_eq. split; congruence.
Qed.

Lemma signal_is_string (publicSignals : list string) (i : nat) (s : string) :
  signal publicSignals i = JString s <-> publicSignals !! i = Some s.
Proof.
  unfold signal, array_get.
  destruct (publicSignals !! i); split; congruence.
Qed.

Lemma toString_Return (v : JsVal) :
  is_nullish v = false -> toString v = Return (ToString v).
Proof. destruct v; simpl; congruence. Qed.

Lemma toString_Throw (v : JsVal) :
  is_nullish v = true ->
  exists message, toString v = Throw (TypeError message).
Proof. destruct v; simpl; try discriminate; eauto. Qed.

Lemma toString_Return_inv (v : JsVal) (s : string) :
  toString v = Return s -> is_nullish v = false /\ s = ToString v.
Proof. destruct v; simpl; intros H; inversion H; auto. Qed.

Lemma toString_Throw_inv (v : JsVal) (e : JsVal) :
  toString v = Throw e ->
  is_nullish v = true /\ exists message, e = TypeError message.
Proof. destruct v; simpl; intros H; inversion H; eauto. Qed.

(** On the integers up to 2^53 in magnitude, [toString] writes the decimal
    digits. *)
Lemma Number_toString_integer (z : Z) :
  (Z.abs z <= 2 ^ 53)%Z -> Number_toString (Number_of_Z z) = decimal z.
Proof.
  intros Hz. unfold Number_toString, Number_of_Z, inject_Z. simpl.
  rewrite Z.mod_1_r, Z.div_1_r. simpl.
  destruct (Z.leb_spec (Z.abs z) (2 ^ 53)); [reflexivity | lia].
Qed.

(** *** Running [verify] *)

Lemma run_eval {X A} (w : World) (c : Completion X) (k : X -> Async A) :
  run w (eval c k) =
  match c with
  | Return x => run w (k x)
  | Throw e => ([], Throw e)
  end.
Proof. destruct c; reflexivity. Qed.

(** The run of the statements after the [try]: the clock is read, then the
    four conversions decide. *)
Lemma run_attest (w : World) (self : SelfBackendVerifier)
    (proof : ProofPoints.t) (publicSignals : list string)
    (isValidScope isValidAttestationId : bool) (user_identifier : string)
    (result : VerifyAllResult.t) :
  exists settled,
    run w (attest self proof publicSignals isValidScope isValidAttestationId
             user_identifier result)
    = ([ReadClock (toISOString w)], settled).
Proof.
  unfold attest. cbn [run].
  repeat (rewrite run_eval;
          match goal with
          | |- context [match ?c with Return _ => _ | Throw _ => _ end] =>
              destruct c
          end);
    cbn [run]; eauto.
Qed.

(** Splitting on the completion that the run is waiting for. *)
Ltac run_split H :=
  rewrite run_eval in H;
  match type of H with
  | context [match ?c with Return _ => _ | Throw _ => _ end] =>
      let E := fresh "E" in
      destruct c eqn:E; [| solve [cbn in H; intuition discriminate]]
  end.

(** When every step before it succeeds, the run makes the two Registry
    calls and the Verifier call, and goes on from the answer. *)
Lemma verify_prepared (w : World) (self : SelfBackendVerifier)
    (proof : ProofPoints.t) (publicSignals : list string) (p : Prepared) :
  prepares w self proof publicSignals p ->
  run w (verify self proof publicSignals)
  = let hub :=
      vcAndDiscloseHubProof self (forbiddenCountriesListPacked p) proof
        (b01 p) (b00 p) (b11 p) (b10 p) publicSignals in
    let answer :=
      verifyAll w (verifyAllContract self) (timestamp p) hub (types self) in
    let (events, settled) :=
      run w
        match answer with
        | Return result =>
            attest self proof publicSignals
              (strict_equals_string (scope self)
                 (signal publicSignals
                    (CircuitConstants.VC_AND_DISCLOSE_SCOPE_INDEX
                       CIRCUIT_CONSTANTS)))
              (strict_equals_string (Number_toString (attestationId self))
                 (signal publicSignals
                    (CircuitConstants.VC_AND_DISCLOSE_ATTESTATION_ID_INDEX
                       CIRCUIT_CONSTANTS)))
              (user_identifier p) result
        | Throw error =>
            Resolve (caught self proof publicSignals (user_identifier p) error)
        end in
    (CalledRoot (registryContract self) (Return (currentRoot p))
     :: CalledRootTimestamps (registryContract self) (currentRoot p)
          (Return (timestamp p))
     :: CalledVerifyAll (verifyAllContract self) (timestamp p) hub
          (types self) answer
     :: events,
     settled).
Proof.
  intros (Epack & E01 & E00 & E11 & E10 & Eroot & Etime & Eid & Euid).
  unfold verify, await, try_await.
  rewrite Epack, E01, E00, E11, E10. cbn [run eval].
  rewrite Eroot. cbn [run eval]. rewrite Etime. cbn [run eval].
  rewrite Eid. cbn [run eval]. rewrite Euid. cbn [run eval].
  destruct (run w _) as [events settled]. reflexivity.
Qed.

(** The Verifier is called only when every earlier step has succeeded. *)
Lemma called_prepared (w : World) (self : SelfBackendVerifier)
    (proof : ProofPoints.t) (publicSignals : list string)
    (v : Contract) (t : JsVal) (hub : VcAndDiscloseHubProof.t)
    (tys : list nat) (answer : Completion VerifyAllResult.t) :
  In (CalledVerifyAll v t hub tys answer)
     (run w (verify self proof publicSignals)).1 ->
  exists p : Prepared, prepares w self proof publicSignals p.
Proof.
  unfold verify. intros H.
  do 5 run_split H.
  unfold await in H. cbn [run] in H.
  run_split H. cbn [run] in H.
  do 3 run_split H.
  eexists (Build_Prepared _ _ _ _ _ _ _ _ _).
  unfold prepares. cbn. eauto 10.
Qed.

(** If the Verifier was called, the call carried the payload and the fields
    built from the policy, and the promise settles from the answer alone. *)
Lemma verify_called (w : World) (self : SelfBackendVerifier)
    (proof : ProofPoints.t) (publicSignals : list string)
    (v : Contract) (t : JsVal) (hub : VcAndDiscloseHubProof.t)
    (tys : list nat) (answer : Completion VerifyAllResult.t) :
  In (CalledVerifyAll v t hub tys answer)
     (run w (verify self proof publicSignals)).1 ->
  exists p : Prepared,
    prepares w self proof publicSignals p
    /\ v = verifyAllContract self
    /\ t = timestamp p
    /\ hub = vcAndDiscloseHubProof self (forbiddenCountriesListPacked p)
               proof (b01 p) (b00 p) (b11 p) (b10 p) publicSignals
    /\ tys = types self
    /\ answer = verifyAll w v t hub tys
    /\ (run w (verify self proof publicSignals)).2
       = match answer with
         | Throw error =>
             Return (caught self proof publicSignals (user_identifier p)
                       error)
         | Return result =>
             (run w
                (attest self proof publicSignals
                   (strict_equals_string (scope self)
                      (signal publicSignals
                         (CircuitConstants.VC_AND_DISCLOSE_SCOPE_INDEX
                            CIRCUIT_CONSTANTS)))
                   (strict_equals_string
                      (Number_toString (attestationId self))
                      (signal publicSignals
                         (CircuitConstants.VC_AND_DISCLOSE_ATTESTATION_ID_INDEX
                            CIRCUIT_CONSTANTS)))
                   (user_identifier p) result)).2
         end.
Proof.
  intros H. destruct (called_prepared _ _ _ _ _ _ _ _ _ H) as [p Hp].
  exists p. split; [exact Hp |].
  rewrite (verify_prepared _ _ _ _ _ Hp) in H |- *. cbv zeta in H |- *.
  destruct (verifyAll w _ _ _ _) as [result | error] eqn:Eanswer.
  - destruct (run_attest w self proof publicSignals
                (strict_equals_string (scope self)
                   (signal publicSignals
                      (CircuitConstants.VC_AND_DISCLOSE_SCOPE_INDEX
                         CIRCUIT_CONSTANTS)))
                (strict_equals_string (Number_toString (attestationId self))
                   (signal publicSignals
                      (CircuitConstants.VC_AND_DISCLOSE_ATTESTATION_ID_INDEX
                         CIRCUIT_CONSTANTS)))
                (user_identifier p) result) as [settled Hrun].
    rewrite Hrun in H |- *. cbn [fst snd In] in H |- *.
    destruct H as [H | [H | [H | [H | []]]]]; try discriminate H.
    injection H as <- <- <- <- <-. rewrite Eanswer, Hrun. auto 10.
  - cbn [run fst snd In] in H |- *.
    destruct H as [H | [H | [H | []]]]; try discriminate H.
    injection H as <- <- <- <- <-. rewrite Eanswer. auto 10.
Qed.

(** How the statements after the [try] settle: with an attestation whose
    checks are as computed when the four converted entries are present, with
    a TypeError when one of them is missing. *)
Lemma attest_settles (w : World) (self : SelfBackendVerifier)
    (proof : ProofPoints.t) (publicSignals : list string)
    (isValidScope isValidAttestationId : bool) (user_identifier : string)
    (result : VerifyAllResult.t) :
  match
    (run w (attest self proof publicSignals isValidScope isValidAttestationId
              user_identifier result)).2
  with
  | Return o =>
      decodable result
      /\ SelfVerificationResult.isValidDetails o
         = {| IsValidDetails.isValidScope := isValidScope;
              IsValidDetails.isValidAttestationId := isValidAttestationId;
              IsValidDetails.isValidProof := VerifyAllResult.result_1 result;
              IsValidDetails.isValidNationality :=
                if enabled (nationality self)
                then strict_equals_string (value (nationality self))
                       (field result
                          (RevealedDataTypes.nationality revealedDataTypes))
                else true |}
      /\ SelfVerificationResult.isValid o
         = VerifyAllResult.result_1 result && isValidScope
           && isValidAttestationId
           && (if enabled (nationality self)
               then strict_equals_string (value (nationality self))
                      (field result
                         (RevealedDataTypes.nationality revealedDataTypes))
               else true)
  | Throw e => ~ decodable result /\ exists message, e = TypeError message
  end.
Proof.
  unfold attest, decodable. cbn [run].
  repeat (rewrite run_eval;
          match goal with
          | |- context [match ?c with Return _ => _ | Throw _ => _ end] =>
              let E := fresh "E" in
              destruct c eqn:E;
              [apply toString_Return_inv in E; destruct E as [E _]
              |apply toString_Throw_inv in E; destruct E as [E ?];
               cbn [run fst snd]; split; [intuition congruence | assumption]]
          end).
  cbn [run fst snd]. auto 10.
Qed.

(** *** The checks of the outcome *)

(** C1.  When the Verifier answers and [verify] returns an outcome:
    [isValidScope] holds exactly when the public signal at the scope index is
    the stored scope hash, character for character; [isValidAttestationId]
    holds exactly when the signal at the attestation-id index is the
    attestation id written as a string; [isValidProof] is the flag of the
    response; and [isValid] is the conjunction of the four sub-checks, so
    one false sub-check makes it false. *)
Theorem verify_checks (w : World) (self : SelfBackendVerifier)
    (proof : ProofPoints.t) (publicSignals : list string)
    (v : Contract) (t : JsVal) (hub : VcAndDiscloseHubProof.t)
    (tys : list nat) (result : VerifyAllResult.t)
    (o : SelfVerificationResult.t) :
  In (CalledVerifyAll v t hub tys (Return result))
     (run w (verify self proof publicSignals)).1 ->
  (run w (verify self proof publicSignals)).2 = Return o ->
  let d := SelfVerificationResult.isValidDetails o in
  (IsValidDetails.isValidScope d = true
   <-> publicSignals
         !! CircuitConstants.VC_AND_DISCLOSE_SCOPE_INDEX CIRCUIT_CONSTANTS
       = Some (scope self))
  /\ (IsValidDetails.isValidAttestationId d = true
      <-> publicSignals
            !! CircuitConstants.VC_AND_DISCLOSE_ATTESTATION_ID_INDEX
                 CIRCUIT_CONSTANTS
          = Some (Number_toString (attestationId self)))
  /\ IsValidDetails.isValidProof d = VerifyAllResult.result_1 result
  /\ SelfVerificationResult.isValid o
     = IsValidDetails.isValidProof d && IsValidDetails.isValidScope d
       && IsValidDetails.isValidAttestationId d
       && IsValidDetails.isValidNationality d
  /\ (IsValidDetails.isValidProof d = false
      \/ IsValidDetails.isValidScope d = false
      \/ IsValidDetails.isValidAttestationId d = false
      \/ IsValidDetails.isValidNationality d = false ->
      SelfVerificationResult.isValid o = false).
Proof.
  intros Hcall Hsettled d.
  destruct (verify_called _ _ _ _ _ _ _ _ _ Hcall)
    as (p & _ & _ & _ & _ & _ & _ & Hrun).
  rewrite Hsettled in Hrun.
  match type of Hrun with
  | _ = (run w (attest ?s ?pr ?ps ?vs ?va ?u ?r)).2 =>
      pose proof (attest_settles w s pr ps vs va u r) as Hattest
  end.
  rewrite <- Hrun in Hattest. destruct Hattest as (_ & Hd & Hvalid).
  subst d. rewrite Hd, Hvalid. cbn.
  rewrite !strict_equals_string_true, !signal_is_string.
  repeat split; try tauto.
  intros [H | [H | [H | H]]]; rewrite H;
    rewrite ?andb_false_r, ?andb_false_l; reflexivity.
Qed.

(** C7.  When the Verifier answers and [verify] returns an outcome: with the
    nationality check disabled [isValidNationality] is true; with the check
    enabled it is true exactly when the nationality entry of the response is
    the configured value, and a different entry makes [isValid] false. *)
Theorem verify_nationality (w : World) (self : SelfBackendVerifier)
    (proof : ProofPoints.t) (publicSignals : list string)
    (v : Contract) (t : JsVal) (hub : VcAndDiscloseHubProof.t)
    (tys : list nat) (result : VerifyAllResult.t)
    (o : SelfVerificationResult.t) :
  In (CalledVerifyAll v t hub tys (Return result))
     (run w (verify self proof publicSignals)).1 ->
  (run w (verify self proof publicSignals)).2 = Return o ->
  let d := SelfVerificationResult.isValidDetails o in
  let decoded :=
    field result (RevealedDataTypes.nationality revealedDataTypes) in
  (enabled (nationality self) = false ->
   IsValidDetails.isValidNationality d = true)
  /\ (enabled (nationality self) = true ->
      (IsValidDetails.isValidNationality d = true
       <-> decoded = JString (value (nationality self)))
      /\ (decoded <> JString (value (nationality self)) ->
          IsValidDetails.isValidNationality d = false
          /\ SelfVerificationResult.isValid o = false)).
Proof.
  intros Hcall Hsettled d decoded.
  destruct (verify_called _ _ _ _ _ _ _ _ _ Hcall)
    as (p & _ & _ & _ & _ & _ & _ & Hrun).
  rewrite Hsettled in Hrun.
  match type of Hrun with
  | _ = (run w (attest ?s ?pr ?ps ?vs ?va ?u ?r)).2 =>
      pose proof (attest_settles w s pr ps vs va u r) as Hattest
  end.
  rewrite <- Hrun in Hattest. destruct Hattest as (_ & Hd & Hvalid).
  subst d decoded. rewrite Hd, Hvalid. cbn.
  split; intros Henabled; rewrite Henabled; [reflexivity |].
  rewrite strict_equals_string_true. split; [tauto |].
  intros Hdiff.
  destruct (strict_equals_string (value (nationality self)) _) eqn:Heq.
  - apply strict_equals_string_true in Heq. contradiction.
  - rewrite andb_false_r. split; reflexivity.
Qed.

(** C10.  When the Verifier answers, whatever the policy flags: [verify]
    returns an outcome exactly when the older-than entry and the three OFAC
    entries of the response are all neither [undefined] nor [null];
    otherwise the conversion of the first missing one throws a TypeError and
    no outcome is produced. *)
Theorem verify_decodes_optional_fields (w : World)
    (self : SelfBackendVerifier) (proof : ProofPoints.t)
    (publicSignals : list string) (v : Contract) (t : JsVal)
    (hub : VcAndDiscloseHubProof.t) (tys : list nat)
    (result : VerifyAllResult.t) :
  In (CalledVerifyAll v t hub tys (Return result))
     (run w (verify self proof publicSignals)).1 ->
  ((exists o, (run w (verify self proof publicSignals)).2 = Return o)
   <-> decodable result)
  /\ (~ decodable result ->
      exists message,
        (run w (verify self proof publicSignals)).2
        = Throw (TypeError message)).
Proof.
  intros Hcall.
  destruct (verify_called _ _ _ _ _ _ _ _ _ Hcall)
    as (p & _ & _ & _ & _ & _ & _ & Hrun).
  match type of Hrun with
  | _ = (run w (attest ?s ?pr ?ps ?vs ?va ?u ?r)).2 =>
      pose proof (attest_settles w s pr ps vs va u r) as Hattest
  end.
  rewrite <- Hrun in Hattest.
  destruct (run w (verify self proof publicSignals)).2 as [o | e].
  - destruct Hattest as (Hdec & _). split; [split; eauto | tauto].
  - destruct Hattest as (Hnot & message & ->).
    split; [split; [intros [o Ho]; discriminate Ho | tauto] | eauto].
Qed.

(** C2.  When the call of the Verifier throws, [verify] returns an outcome
    instead of throwing: [isValid] and the four sub-checks are false, the
    credential subject is the empty record, the error is the thrown value,
    and the user identifier, the scope and the nullifier are those computed
    from the public signals and the configuration. *)
Theorem verify_catches_verifier_failure (w : World)
    (self : SelfBackendVerifier) (proof : ProofPoints.t)
    (publicSignals : list string) (v : Contract) (t : JsVal)
    (hub : VcAndDiscloseHubProof.t) (tys : list nat) (error : JsVal) :
  In (CalledVerifyAll v t hub tys (Throw error))
     (run w (verify self proof publicSignals)).1 ->
  exists (identifier : Z) (user_identifier : string),
    BigInt
      (signal publicSignals
         (CircuitConstants.VC_AND_DISCLOSE_USER_IDENTIFIER_INDEX
            CIRCUIT_CONSTANTS))
    = Return identifier
    /\ castToUserIdentifier identifier (user_identifier_type self)
       = Return user_identifier
    /\ (run w (verify self proof publicSignals)).2
       = Return
           {| SelfVerificationResult.isValid := false;
              SelfVerificationResult.isValidDetails :=
                {| IsValidDetails.isValidScope := false;
                   IsValidDetails.isValidAttestationId := false;
                   IsValidDetails.isValidProof := false;
                   IsValidDetails.isValidNationality := false |};
              SelfVerificationResult.userId := user_identifier;
              SelfVerificationResult.application := scope self;
              SelfVerificationResult.nullifier :=
                signal publicSignals
                  (CircuitConstants.VC_AND_DISCLOSE_NULLIFIER_INDEX
                     CIRCUIT_CONSTANTS);
              SelfVerificationResult.credentialSubject := ∅;
              SelfVerificationResult.proof :=
                {| ProofValue.proof := proof;
                   ProofValue.publicSignals := publicSignals |};
              SelfVerificationResult.error := error |}.
Proof.
  intros Hcall.
  destruct (verify_called _ _ _ _ _ _ _ _ _ Hcall)
    as (p & Hp & _ & _ & _ & _ & _ & Hrun).
  destruct Hp as (_ & _ & _ & _ & _ & _ & _ & Hid & Huid).
  exists (identifier p), (user_identifier p).
  rewrite Hrun. auto.
Qed.

(** *** The request *)

(** The pushes of the source give the list the specification describes. *)
Lemma types_requested_fields (self : SelfBackendVerifier) :
  types self
  = requested_fields (enabled (minimumAge self)) (passportNoOfac self)
      (nameAndDobOfac self) (nameAndYobOfac self).
Proof.
  unfold types, requested_fields, mandatory_fields, push.
  destruct (enabled (minimumAge self)), (passportNoOfac self),
    (nameAndDobOfac self), (nameAndYobOfac self); reflexivity.
Qed.

(** C3.  The list of requested fields that [verify] sends is the seven
    mandatory fields in their fixed order, then older_than,
    passport_no_ofac, name_and_dob_ofac and name_and_yob_ofac, each exactly
    when its flag is set; with the age check and the passport-number OFAC
    check alone it has exactly nine entries, in that order. *)
Theorem verify_requested_fields (w : World) (self : SelfBackendVerifier)
    (proof : ProofPoints.t) (publicSignals : list string)
    (v : Contract) (t : JsVal) (hub : VcAndDiscloseHubProof.t)
    (tys : list nat) (answer : Completion VerifyAllResult.t) :
  In (CalledVerifyAll v t hub tys answer)
     (run w (verify self proof publicSignals)).1 ->
  tys
  = requested_fields (enabled (minimumAge self)) (passportNoOfac self)
      (nameAndDobOfac self) (nameAndYobOfac self)
  /\ (enabled (minimumAge self) = true ->
      passportNoOfac self = true ->
      nameAndDobOfac self = false ->
      nameAndYobOfac self = false ->
      length tys = 9
      /\ tys
         = [RevealedDataTypes.issuing_state revealedDataTypes;
            RevealedDataTypes.name revealedDataTypes;
            RevealedDataTypes.passport_number revealedDataTypes;
            RevealedDataTypes.nationality revealedDataTypes;
            RevealedDataTypes.date_of_birth revealedDataTypes;
            RevealedDataTypes.gender revealedDataTypes;
            RevealedDataTypes.expiry_date revealedDataTypes;
            RevealedDataTypes.older_than revealedDataTypes;
            RevealedDataTypes.passport_no_ofac revealedDataTypes]).
Proof.
  intros Hcall.
  destruct (verify_called _ _ _ _ _ _ _ _ _ Hcall)
    as (p & _ & _ & _ & _ & -> & _).
  rewrite types_requested_fields. split; [reflexivity |].
  intros -> -> -> ->. split; reflexivity.
Qed.

(** Reading a two-by-two array. *)
Lemma b_at_matrix (proof : ProofPoints.t) (x y z u : JsVal) :
  ProofPoints.b proof = JArray [JArray [x; y]; JArray [z; u]] ->
  b_at proof 0 1 = Return y /\ b_at proof 0 0 = Return x
  /\ b_at proof 1 1 = Return u /\ b_at proof 1 0 = Return z.
Proof. unfold b_at. intros ->. cbn. auto. Qed.

(** C4.  The payload sent to the Verifier carries [proof.a], [proof.c] and
    the public signals as they are, and for [b] the array
    [[b[0][1], b[0][0]], [b[1][1], b[1][0]]]: a two-by-two [b] is sent with
    the two elements of each row exchanged.  The policy has no part in it:
    any verifier sends the same proof component for the same arguments. *)
Theorem verify_swaps_b_columns (w : World) (self : SelfBackendVerifier)
    (proof : ProofPoints.t) (publicSignals : list string)
    (v : Contract) (t : JsVal) (hub : VcAndDiscloseHubProof.t)
    (tys : list nat) (answer : Completion VerifyAllResult.t) :
  In (CalledVerifyAll v t hub tys answer)
     (run w (verify self proof publicSignals)).1 ->
  let sent := VcAndDiscloseHubProof.vcAndDiscloseProof hub in
  VcAndDiscloseProof.a sent = ProofPoints.a proof
  /\ VcAndDiscloseProof.c sent = ProofPoints.c proof
  /\ VcAndDiscloseProof.pubSignals sent = publicSignals
  /\ (exists b01 b00 b11 b10 : JsVal,
        b_at proof 0 1 = Return b01 /\ b_at proof 0 0 = Return b00
        /\ b_at proof 1 1 = Return b11 /\ b_at proof 1 0 = Return b10
        /\ VcAndDiscloseProof.b sent
           = JArray [JArray [b01; b00]; JArray [b11; b10]])
  /\ (forall x y z u : JsVal,
        ProofPoints.b proof = JArray [JArray [x; y]; JArray [z; u]] ->
        VcAndDiscloseProof.b sent = JArray [JArray [y; x]; JArray [u; z]])
  /\ (forall (w' : World) (self' : SelfBackendVerifier) (v' : Contract)
        (t' : JsVal) (hub' : VcAndDiscloseHubProof.t) (tys' : list nat)
        (answer' : Completion VerifyAllResult.t),
        In (CalledVerifyAll v' t' hub' tys' answer')
           (run w' (verify self' proof publicSignals)).1 ->
        VcAndDiscloseHubProof.vcAndDiscloseProof hub' = sent).
Proof.
  intros Hcall sent.
  destruct (verify_called _ _ _ _ _ _ _ _ _ Hcall)
    as (p & Hp & _ & _ & Hhub & _).
  destruct Hp as (_ & E01 & E00 & E11 & E10 & _).
  subst sent. rewrite Hhub. cbn.
  repeat split.
  - exists (b01 p), (b00 p), (b11 p), (b10 p). auto 10.
  - intros x y z u Hb.
    destruct (b_at_matrix _ _ _ _ _ Hb) as (F01 & F00 & F11 & F10).
    congruence.
  - intros w' self' v' t' hub' tys' answer' Hcall'.
    destruct (verify_called _ _ _ _ _ _ _ _ _ Hcall')
      as (p' & Hp' & _ & _ & -> & _).
    destruct Hp' as (_ & F01 & F00 & F11 & F10 & _).
    cbn. congruence.
Qed.

(** *** Failures before the call of the Verifier *)

(** A run that does not get as far as the Verifier stops with a thrown
    value, after no call, after the failed fetch of the root, after the
    failed fetch of its timestamp, or after both fetches. *)
Lemma verify_unprepared (w : World) (self : SelfBackendVerifier)
    (proof : ProofPoints.t) (publicSignals : list string) :
  (exists p : Prepared, prepares w self proof publicSignals p)
  \/ (exists e, run w (verify self proof publicSignals) = ([], Throw e))
  \/ (exists e,
        run w (verify self proof publicSignals)
        = ([CalledRoot (registryContract self) (Throw e)], Throw e))
  \/ (exists root e,
        run w (verify self proof publicSignals)
        = ([CalledRoot (registryContract self) (Return root);
            CalledRootTimestamps (registryContract self) root (Throw e)],
           Throw e))
  \/ (exists root time e,
        run w (verify self proof publicSignals)
        = ([CalledRoot (registryContract self) (Return root);
            CalledRootTimestamps (registryContract self) root (Return time)],
           Throw e)).
Proof.
  unfold verify, await.
  destruct (packForbiddenCountriesList _) as [packed | e] eqn:Epack;
    [| right; left; eauto].
  destruct (b_at proof 0 1) as [c01 | e] eqn:E01; [| right; left; eauto].
  destruct (b_at proof 0 0) as [c00 | e] eqn:E00; [| right; left; eauto].
  destruct (b_at proof 1 1) as [c11 | e] eqn:E11; [| right; left; eauto].
  destruct (b_at proof 1 0) as [c10 | e] eqn:E10; [| right; left; eauto].
  cbn [run eval].
  destruct (getIdentityCommitmentMerkleRoot w _) as [root | e] eqn:Eroot;
    [| right; right; left; eauto].
  cbn [run eval].
  destruct (rootTimestamps w _ _) as [time | e] eqn:Etime;
    [| right; right; right; left; eauto].
  cbn [run eval].
  destruct (BigInt _) as [n | e] eqn:Eid;
    [| right; right; right; right; eauto].
  cbn [run eval].
  destruct (castToUserIdentifier _ _) as [uid | e] eqn:Euid;
    [| right; right; right; right; eauto].
  left. exists (Build_Prepared packed c01 c00 c11 c10 root time n uid).
  unfold prepares. cbn. auto 10.
Qed.

(** C8.  A failure of the packing of the country list, of the fetch of the
    merkle root or of the fetch of its timestamp comes out of [verify] as
    the thrown value itself: the promise rejects with it and no outcome is
    built. *)
Theorem verify_propagates_upstream_failure (w : World)
    (self : SelfBackendVerifier) (proof : ProofPoints.t)
    (publicSignals : list string) (e : JsVal) :
  packForbiddenCountriesList (value (excludedCountries self)) = Throw e
  \/ (exists registry,
        In (CalledRoot registry (Throw e))
           (run w (verify self proof publicSignals)).1)
  \/ (exists registry root,
        In (CalledRootTimestamps registry root (Throw e))
           (run w (verify self proof publicSignals)).1) ->
  (run w (verify self proof publicSignals)).2 = Throw e.
Proof.
  intros [Hpack | Hcalls].
  { unfold verify. rewrite run_eval, Hpack. reflexivity. }
  destruct (verify_unprepared w self proof publicSignals)
    as [[p Hp] | [[e' Hrun] | [[e' Hrun] | [(root & e' & Hrun)
       | (root & time & e' & Hrun)]]]].
  - exfalso. rewrite (verify_prepared _ _ _ _ _ Hp) in Hcalls.
    cbv zeta in Hcalls.
    destruct (verifyAll w _ _ _ _) as [result | error].
    + match type of Hcalls with
      | context [run w (attest ?s ?pr ?ps ?vs ?va ?u ?r)] =>
          destruct (run_attest w s pr ps vs va u r) as [settled Hattest]
      end.
      rewrite Hattest in Hcalls. cbn [fst In] in Hcalls.
      destruct Hcalls as [[registry H] | (registry & root & H)];
        intuition discriminate.
    + cbn [run fst In] in Hcalls.
      destruct Hcalls as [[registry H] | (registry & root & H)];
        intuition discriminate.
  - rewrite Hrun in Hcalls. cbn [fst In] in Hcalls.
    destruct Hcalls as [[registry H] | (registry & root & H)]; destruct H.
  - rewrite Hrun in Hcalls |- *. cbn [fst snd In] in Hcalls |- *.
    destruct Hcalls as [[registry H] | (registry & root0 & H)];
      intuition congruence.
  - rewrite Hrun in Hcalls |- *. cbn [fst snd In] in Hcalls |- *.
    destruct Hcalls as [[registry H] | (registry & root0 & H)];
      intuition congruence.
  - exfalso. rewrite Hrun in Hcalls. cbn [fst In] in Hcalls.
    destruct Hcalls as [[registry H] | (registry & root0 & H)];
      intuition discriminate.
Qed.

(** *** The setters *)

(** The two guards of [setMinimumAge], in terms of the value of the age. *)
Lemma setMinimumAge_guards (age : number) :
  Number_le age (Number_of_Z 0) || Number_gt age (Number_of_Z 100) = true
  <-> match age with
      | NaN => False
      | Infinity _ => True
      | Finite q => (q <= 0)%Q \/ (100 < q)%Q
      end.
Proof.
  unfold Number_gt, Number_of_Z.
  destruct age as [| [|] | q]; cbn [Number_le Number_lt orb].
  - split; [discriminate | tauto].
  - tauto.
  - tauto.
  - rewrite orb_true_iff, negb_true_iff, Qle_bool_iff.
    change (inject_Z 0) with 0%Q. change (inject_Z 100) with 100%Q.
    split; (intros [H | H]; [left; exact H | right]).
    + apply Qnot_le_lt. intros Hle. apply Qle_bool_iff in Hle. congruence.
    + apply not_true_is_false. intros Hle. apply Qle_bool_iff in Hle.
      exact (Qlt_not_le _ _ H Hle).
Qed.

(** C5.  [setMinimumAge(a)] throws exactly when a <= 0 or a > 100 (never
    for NaN, always for an infinity); otherwise it returns the verifier with
    the minimum-age check set to enabled with value [a.toString()] and every
    other field as it was, and a request then sent by [verify] carries
    [olderThanEnabled = true] and [olderThan = a.toString()]. *)
Theorem setMinimumAge_spec (age : number) (self : SelfBackendVerifier) :
  ((exists e, setMinimumAge age self = Throw e)
   <-> match age with
       | NaN => False
       | Infinity _ => True
       | Finite q => (q <= 0)%Q \/ (100 < q)%Q
       end)
  /\ (forall self' : SelfBackendVerifier,
        setMinimumAge age self = Return self' ->
        minimumAge self'
        = {| enabled := true; value := Number_toString age |}
        /\ same_but_minimumAge self self'
        /\ forall (w : World) (proof : ProofPoints.t)
             (publicSignals : list string) (v : Contract) (t : JsVal)
             (hub : VcAndDiscloseHubProof.t) (tys : list nat)
             (answer : Completion VerifyAllResult.t),
             In (CalledVerifyAll v t hub tys answer)
                (run w (verify self' proof publicSignals)).1 ->
             VcAndDiscloseHubProof.olderThanEnabled hub = true
             /\ VcAndDiscloseHubProof.olderThan hub = Number_toString age).
Proof.
  pose proof (setMinimumAge_guards age) as Hguards.
  unfold setMinimumAge.
  destruct (Number_le age (Number_of_Z 0)) eqn:Hle;
    [| destruct (Number_gt age (Number_of_Z 100)) eqn:Hgt];
    cbn [orb] in Hguards.
  - split; [split; [intros _; tauto | eauto] | discriminate].
  - split; [split; [intros _; tauto | eauto] | discriminate].
  - split.
    + split; [intros [e He]; discriminate He |].
      intros H. apply Hguards in H. discriminate H.
    + intros self' [= <-].
      split; [reflexivity |].
      split; [unfold same_but_minimumAge; cbn; auto 15 |].
      intros w proof publicSignals v t hub tys answer Hcall.
      destruct (verify_called _ _ _ _ _ _ _ _ _ Hcall)
        as (p & _ & _ & _ & -> & _).
      cbn. auto.
Qed.

(** C6.  [excludeCountries(...L)] throws exactly when L has more than 40
    elements; otherwise it returns the verifier with the exclusion set to
    enabled with value L itself, in the order given and whatever list was
    stored before, and every other field as it was. *)
Theorem excludeCountries_spec (countries : list Country3LetterCode)
    (self : SelfBackendVerifier) :
  ((exists e, excludeCountries countries self = Throw e)
   <-> 40 < length countries)
  /\ (forall self' : SelfBackendVerifier,
        excludeCountries countries self = Return self' ->
        excludedCountries self' = {| enabled := true; value := countries |}
        /\ same_but_excludedCountries self self').
Proof.
  unfold excludeCountries.
  destruct (Nat.ltb_spec 40 (length countries)) as [Hlong | Hshort].
  - split; [split; eauto | discriminate].
  - split.
    + split; [intros [e He]; discriminate He | lia].
    + intros self' [= <-].
      split; [reflexivity |].
      unfold same_but_excludedCountries. cbn. auto 15.
Qed.

(** C9.  Each of the three OFAC setters gives the same verifier applied
    twice as applied once; it sets its own flag and leaves the two other
    flags and every other field as they were; and after the three setters
    the three flags are set together. *)
Theorem ofac_setters_idempotent_independent (self : SelfBackendVerifier) :
  (enablePassportNoOfacCheck (enablePassportNoOfacCheck self)
   = enablePassportNoOfacCheck self
   /\ enableNameAndDobOfacCheck (enableNameAndDobOfacCheck self)
      = enableNameAndDobOfacCheck self
   /\ enableNameAndYobOfacCheck (enableNameAndYobOfacCheck self)
      = enableNameAndYobOfacCheck self)
  /\ (let s := enablePassportNoOfacCheck self in
      passportNoOfac s = true
      /\ nameAndDobOfac s = nameAndDobOfac self
      /\ nameAndYobOfac s = nameAndYobOfac self
      /\ same_but_ofac self s)
  /\ (let s := enableNameAndDobOfacCheck self in
      nameAndDobOfac s = true
      /\ passportNoOfac s = passportNoOfac self
      /\ nameAndYobOfac s = nameAndYobOfac self
      /\ same_but_ofac self s)
  /\ (let s := enableNameAndYobOfacCheck self in
      nameAndYobOfac s = true
      /\ passportNoOfac s = passportNoOfac self
      /\ nameAndDobOfac s = nameAndDobOfac self
      /\ same_but_ofac self s)
  /\ (let s :=
        enableNameAndYobOfacCheck
          (enableNameAndDobOfacCheck (enablePassportNoOfacCheck self)) in
      passportNoOfac s = true /\ nameAndDobOfac s = true
      /\ nameAndYobOfac s = true).
Proof.
  unfold same_but_ofac. cbn. auto 20.
Qed.

(** *** The order of the calls *)

(** A run of [verify] up to the call of the Verifier: what earlier step
    stopped it, or the values in hand. *)
Lemma verify_run_shape (w : World) (self : SelfBackendVerifier)
    (proof : ProofPoints.t) (publicSignals : list string) :
  let registry := registryContract self in
  let settles := run w (verify self proof publicSignals) in
  (exists p : Prepared, prepares w self proof publicSignals p)
  \/ (exists e,
        settles = ([], Throw e)
        /\ (packForbiddenCountriesList (value (excludedCountries self))
            = Throw e
            \/ b_at proof 0 1 = Throw e \/ b_at proof 0 0 = Throw e
            \/ b_at proof 1 1 = Throw e \/ b_at proof 1 0 = Throw e))
  \/ (exists e, settles = ([CalledRoot registry (Throw e)], Throw e))
  \/ (exists root e,
        settles
        = ([CalledRoot registry (Return root);
            CalledRootTimestamps registry root (Throw e)],
           Throw e))
  \/ (exists root time e,
        settles
        = ([CalledRoot registry (Return root);
            CalledRootTimestamps registry root (Return time)],
           Throw e)
        /\ (BigInt
              (signal publicSignals
                 (CircuitConstants.VC_AND_DISCLOSE_USER_IDENTIFIER_INDEX
                    CIRCUIT_CONSTANTS))
            = Throw e
            \/ exists n,
                 BigInt
                   (signal publicSignals
                      (CircuitConstants.VC_AND_DISCLOSE_USER_IDENTIFIER_INDEX
                         CIRCUIT_CONSTANTS))
                 = Return n
                 /\ castToUserIdentifier n (user_identifier_type self)
                    = Throw e)).
Proof.
  intros registry settles. subst registry settles. unfold verify, await.
  destruct (packForbiddenCountriesList _) as [packed | e] eqn:Epack;
    [| right; left; eauto].
  destruct (b_at proof 0 1) as [c01 | e] eqn:E01;
    [| right; left; eauto 10].
  destruct (b_at proof 0 0) as [c00 | e] eqn:E00;
    [| right; left; eauto 10].
  destruct (b_at proof 1 1) as [c11 | e] eqn:E11;
    [| right; left; eauto 10].
  destruct (b_at proof 1 0) as [c10 | e] eqn:E10;
    [| right; left; eauto 10].
  cbn [run eval].
  destruct (getIdentityCommitmentMerkleRoot w _) as [root | e] eqn:Eroot;
    [| right; right; left; eauto].
  cbn [run eval].
  destruct (rootTimestamps w _ _) as [time | e] eqn:Etime;
    [| right; right; right; left; eauto].
  cbn [run eval].
  destruct (BigInt _) as [n | e] eqn:Eid;
    [| right; right; right; right; eauto 10].
  cbn [run eval].
  destruct (castToUserIdentifier _ _) as [uid | e] eqn:Euid;
    [| right; right; right; right; eauto 10].
  left. exists (Build_Prepared packed c01 c00 c11 c10 root time n uid).
  unfold prepares. cbn. auto 10.
Qed.

(** The run of a prepared call, with the events after the call of the
    Verifier made explicit. *)
Lemma verify_prepared_events (w : World) (self : SelfBackendVerifier)
    (proof : ProofPoints.t) (publicSignals : list string) (p : Prepared) :
  prepares w self proof publicSignals p ->
  let registry := registryContract self in
  let hub :=
    vcAndDiscloseHubProof self (forbiddenCountriesListPacked p) proof
      (b01 p) (b00 p) (b11 p) (b10 p) publicSignals in
  let answer :=
    verifyAll w (verifyAllContract self) (timestamp p) hub (types self) in
  (run w (verify self proof publicSignals)).1
  = ([CalledRoot registry (Return (currentRoot p));
      CalledRootTimestamps registry (currentRoot p) (Return (timestamp p));
      CalledVerifyAll (verifyAllContract self) (timestamp p) hub (types self)
        answer]
     ++ match answer with
        | Return _ => [ReadClock (toISOString w)]
        | Throw _ => []
        end)%list.
Proof.
  intros Hp registry hub answer. subst registry hub answer.
  rewrite (verify_prepared _ _ _ _ _ Hp). cbv zeta.
  destruct (verifyAll w _ _ _ _) as [result | error].
  - match goal with
    | |- context [run w (attest ?s ?pr ?ps ?vs ?va ?u ?r)] =>
        destruct (run_attest w s pr ps vs va u r) as [settled Hattest]
    end.
    rewrite Hattest. reflexivity.
  - reflexivity.
Qed.

(** X1.  The calls of [verify] come in one order and each at most once:
    the root, the timestamp of that root, the Verifier with that timestamp,
    the clock.  A call that fails is the last one, and the clock is read
    only after the Verifier has answered. *)
Theorem verify_call_protocol (w : World) (self : SelfBackendVerifier)
    (proof : ProofPoints.t) (publicSignals : list string) :
  let registry := registryContract self in
  let verifier := verifyAllContract self in
  let events := (run w (verify self proof publicSignals)).1 in
  events = []
  \/ (exists e, events = [CalledRoot registry (Throw e)])
  \/ (exists root e,
        events
        = [CalledRoot registry (Return root);
           CalledRootTimestamps registry root (Throw e)])
  \/ (exists root time,
        events
        = [CalledRoot registry (Return root);
           CalledRootTimestamps registry root (Return time)])
  \/ (exists root time hub e,
        events
        = [CalledRoot registry (Return root);
           CalledRootTimestamps registry root (Return time);
           CalledVerifyAll verifier time hub (types self) (Throw e)])
  \/ (exists root time hub result,
        events
        = [CalledRoot registry (Return root);
           CalledRootTimestamps registry root (Return time);
           CalledVerifyAll verifier time hub (types self) (Return result);
           ReadClock (toISOString w)]).
Proof.
  intros registry verifier events. subst registry verifier events.
  destruct (verify_run_shape w self proof publicSignals)
    as [[p Hp] | [(e & Hrun & _) | [[e Hrun] | [(root & e & Hrun)
       | (root & time & e & Hrun & _)]]]].
  - rewrite (verify_prepared_events _ _ _ _ _ Hp).
    destruct (verifyAll w _ _ _ _) as [result | error] eqn:Eanswer.
    + do 5 right. cbn [app]. eauto 10.
    + do 4 right. left. cbn [app]. eauto 10.
  - left. rewrite Hrun. reflexivity.
  - right; left. rewrite Hrun. eauto.
  - right; right; left. rewrite Hrun. eauto.
  - right; right; right; left. rewrite Hrun. eauto.
Qed.

(** X2.  When the user identifier of the public signals cannot be
    converted ([BigInt] or [castToUserIdentifier] throws), [verify] throws
    that error after both Registry calls and never calls the Verifier. *)
Theorem verify_user_identifier_failure (w : World)
    (self : SelfBackendVerifier) (proof : ProofPoints.t)
    (publicSignals : list string) (registry : Contract) (root time e : JsVal) :
  In (CalledRootTimestamps registry root (Return time))
     (run w (verify self proof publicSignals)).1 ->
  (BigInt
     (signal publicSignals
        (CircuitConstants.VC_AND_DISCLOSE_USER_IDENTIFIER_INDEX
           CIRCUIT_CONSTANTS))
   = Throw e
   \/ exists n,
        BigInt
          (signal publicSignals
             (CircuitConstants.VC_AND_DISCLOSE_USER_IDENTIFIER_INDEX
                CIRCUIT_CONSTANTS))
        = Return n
        /\ castToUserIdentifier n (user_identifier_type self) = Throw e) ->
  run w (verify self proof publicSignals)
  = ([CalledRoot (registryContract self) (Return root);
      CalledRootTimestamps (registryContract self) root (Return time)],
     Throw e).
Proof.
  intros Hcalled Hfails.
  destruct (verify_run_shape w self proof publicSignals)
    as [[p Hp] | [(e' & Hrun & _) | [[e' Hrun] | [(root' & e' & Hrun)
       | (root' & time' & e' & Hrun & Hwhy)]]]].
  - exfalso.
    destruct Hp as (_ & _ & _ & _ & _ & _ & _ & Hid & Huid).
    destruct Hfails as [Hfails | (n & Hn & Hfails)]; congruence.
  - rewrite Hrun in Hcalled. destruct Hcalled.
  - rewrite Hrun in Hcalled. cbn [fst In] in Hcalled.
    intuition discriminate.
  - rewrite Hrun in Hcalled. cbn [fst In] in Hcalled.
    intuition discriminate.
  - rewrite Hrun in Hcalled |- *. cbn [fst In] in Hcalled.
    destruct Hcalled as [H | [H | []]]; [discriminate H |].
    injection H as _ <- <-.
    assert (e' = e) as ->; [| reflexivity].
    destruct Hwhy as [Hwhy | (n' & Hn' & Hwhy)];
      destruct Hfails as [Hfails | (n & Hn & Hfails)]; congruence.
Qed.

(** *** The shape of [proof.b] *)

Lemma get_elem_Throw_inv (v : JsVal) (i : nat) (e : JsVal) :
  get_elem v i = Throw e ->
  is_nullish v = true /\ exists message, e = TypeError message.
Proof. destruct v; cbn; intros H; inversion H; eauto. Qed.

Lemma b_at_Throw_inv (proof : ProofPoints.t) (i j : nat) (e : JsVal) :
  b_at proof i j = Throw e -> exists message, e = TypeError message.
Proof.
  unfold b_at.
  destruct (get_elem (ProofPoints.b proof) i) as [row | e'] eqn:Erow.
  - intros H. apply get_elem_Throw_inv in H. tauto.
  - intros [= <-]. apply get_elem_Throw_inv in Erow. tauto.
Qed.

(** An array read past its end gives a row that cannot be read. *)
Lemma b_at_missing_row (proof : ProofPoints.t) (rows : list JsVal)
    (i j : nat) :
  ProofPoints.b proof = JArray rows -> length rows <= i ->
  exists e, b_at proof i j = Throw e.
Proof.
  intros Hb Hlen. unfold b_at. rewrite Hb. cbn. unfold array_get.
  rewrite (lookup_ge_None_2 rows i Hlen). cbn. eauto.
Qed.

(** When one of the four reads of [proof.b] throws, [verify] stops there
    with a TypeError, before any call. *)
Lemma verify_b_unreadable (w : World) (self : SelfBackendVerifier)
    (proof : ProofPoints.t) (publicSignals : list string) (packed : JsVal) :
  packForbiddenCountriesList (value (excludedCountries self)) = Return packed ->
  (exists e, b_at proof 0 1 = Throw e) \/ (exists e, b_at proof 0 0 = Throw e)
  \/ (exists e, b_at proof 1 1 = Throw e)
  \/ (exists e, b_at proof 1 0 = Throw e) ->
  exists message,
    run w (verify self proof publicSignals) = ([], Throw (TypeError message)).
Proof.
  intros Hpack Hthrows. unfold verify. rewrite Hpack. cbn [eval].
  destruct (b_at proof 0 1) as [c01 | e] eqn:E01;
    [| apply b_at_Throw_inv in E01 as [m ->]; cbn; eauto].
  destruct (b_at proof 0 0) as [c00 | e] eqn:E00;
    [| apply b_at_Throw_inv in E00 as [m ->]; cbn; eauto].
  destruct (b_at proof 1 1) as [c11 | e] eqn:E11;
    [| apply b_at_Throw_inv in E11 as [m ->]; cbn; eauto].
  destruct (b_at proof 1 0) as [c10 | e] eqn:E10;
    [| apply b_at_Throw_inv in E10 as [m ->]; cbn; eauto].
  exfalso.
  destruct Hthrows as [[e H] | [[e H] | [[e H] | [e H]]]]; discriminate H.
Qed.

(** X3.  [verify] does not check the shape of [proof.b] before reading it.
    When [proof.b] is [undefined], [null] or an array of fewer than two
    rows, [verify] throws a TypeError before any contract call (once the
    country list is packed).  When it is an array whose first two elements
    are arrays, only the first two elements of each are read: a missing one
    is sent as [undefined], further elements and further rows are not
    sent. *)
Theorem verify_b_shape (w : World) (self : SelfBackendVerifier)
    (proof : ProofPoints.t) (publicSignals : list string) :
  (forall packed : JsVal,
     packForbiddenCountriesList (value (excludedCountries self))
     = Return packed ->
     is_nullish (ProofPoints.b proof) = true
     \/ (exists rows,
           ProofPoints.b proof = JArray rows /\ length rows < 2) ->
     exists message,
       run w (verify self proof publicSignals)
       = ([], Throw (TypeError message)))
  /\ (forall (row0 row1 rows : list JsVal) (v : Contract) (t : JsVal)
        (hub : VcAndDiscloseHubProof.t) (tys : list nat)
        (answer : Completion VerifyAllResult.t),
        ProofPoints.b proof = JArray (JArray row0 :: JArray row1 :: rows) ->
        In (CalledVerifyAll v t hub tys answer)
           (run w (verify self proof publicSignals)).1 ->
        VcAndDiscloseProof.b (VcAndDiscloseHubProof.vcAndDiscloseProof hub)
        = JArray
            [JArray [default JUndefined (row0 !! 1);
                     default JUndefined (row0 !! 0)];
             JArray [default JUndefined (row1 !! 1);
                     default JUndefined (row1 !! 0)]]).
Proof.
  split.
  - intros packed Hpack Hshape.
    apply (verify_b_unreadable w self proof publicSignals packed Hpack).
    destruct Hshape as [Hnull | (rows & Hb & Hlen)].
    + left. unfold b_at.
      destruct (ProofPoints.b proof); try discriminate Hnull; cbn; eauto.
    + right; right; left.
      apply (b_at_missing_row proof rows 1 1 Hb). lia.
  - intros row0 row1 rows v t hub tys answer Hb Hcall.
    destruct (verify_called _ _ _ _ _ _ _ _ _ Hcall)
      as (p & Hp & _ & _ & -> & _).
    destruct Hp as (_ & E01 & E00 & E11 & E10 & _).
    unfold b_at in E01, E00, E11, E10. rewrite Hb in E01, E00, E11, E10.
    cbn in E01, E00, E11, E10. unfold array_get in E01, E00, E11, E10.
    cbn.
    destruct (row0 !! 1), (row0 !! 0), (row1 !! 1), (row1 !! 0);
      cbn in *; congruence.
Qed.

(** *** The attestation *)

(** The outcome that the statements after the [try] resolve with. *)
Lemma attest_outcome (w : World) (self : SelfBackendVerifier)
    (proof : ProofPoints.t) (publicSignals : list string)
    (isValidScope isValidAttestationId : bool) (user_identifier : string)
    (result : VerifyAllResult.t) (o : SelfVerificationResult.t) :
  (run w (attest self proof publicSignals isValidScope isValidAttestationId
            user_identifier result)).2
  = Return o ->
  let entry := field result in
  SelfVerificationResult.userId o = user_identifier
  /\ SelfVerificationResult.application o = scope self
  /\ SelfVerificationResult.nullifier o
     = signal publicSignals
         (CircuitConstants.VC_AND_DISCLOSE_NULLIFIER_INDEX CIRCUIT_CONSTANTS)
  /\ SelfVerificationResult.proof o
     = {| ProofValue.proof := proof;
          ProofValue.publicSignals := publicSignals |}
  /\ SelfVerificationResult.error o = VerifyAllResult.result_2 result
  /\ SelfVerificationResult.credentialSubject o
     = list_to_map
         [("merkle_root",
           signal publicSignals
             (CircuitConstants.VC_AND_DISCLOSE_MERKLE_ROOT_INDEX
                CIRCUIT_CONSTANTS));
          ("attestation_id", JString (Number_toString (attestationId self)));
          ("current_date", JString (toISOString w));
          ("issuing_state",
           entry (RevealedDataTypes.issuing_state revealedDataTypes));
          ("name", entry (RevealedDataTypes.name revealedDataTypes));
          ("passport_number",
           entry (RevealedDataTypes.passport_number revealedDataTypes));
          ("nationality",
           entry (RevealedDataTypes.nationality revealedDataTypes));
          ("date_of_birth",
           entry (RevealedDataTypes.date_of_birth revealedDataTypes));
          ("gender", entry (RevealedDataTypes.gender revealedDataTypes));
          ("expiry_date",
           entry (RevealedDataTypes.expiry_date revealedDataTypes));
          ("older_than",
           JString
             (ToString
                (entry (RevealedDataTypes.older_than revealedDataTypes))));
          ("passport_no_ofac",
           JBoolean
             (String.eqb
                (ToString
                   (entry
                      (RevealedDataTypes.passport_no_ofac revealedDataTypes)))
                "1"));
          ("name_and_dob_ofac",
           JBoolean
             (String.eqb
                (ToString
                   (entry
                      (RevealedDataTypes.name_and_dob_ofac revealedDataTypes)))
                "1"));
          ("name_and_yob_ofac",
           JBoolean
             (String.eqb
                (ToString
                   (entry
                      (RevealedDataTypes.name_and_yob_ofac revealedDataTypes)))
                "1"))].
Proof.
  unfold attest. cbn [run].
  repeat (rewrite run_eval;
          match goal with
          | |- context [match ?c with Return _ => _ | Throw _ => _ end] =>
              let E := fresh "E" in
              destruct c eqn:E;
              [apply toString_Return_inv in E; destruct E as [_ ->]
              | cbn [run fst snd]; discriminate]
          end).
  cbn [run fst snd]. intros [= <-]. cbn. auto 10.
Qed.

(** The outcome of a run in which the Verifier answered. *)
Lemma verify_answered (w : World) (self : SelfBackendVerifier)
    (proof : ProofPoints.t) (publicSignals : list string)
    (v : Contract) (t : JsVal) (hub : VcAndDiscloseHubProof.t)
    (tys : list nat) (result : VerifyAllResult.t)
    (o : SelfVerificationResult.t) :
  In (CalledVerifyAll v t hub tys (Return result))
     (run w (verify self proof publicSignals)).1 ->
  (run w (verify self proof publicSignals)).2 = Return o ->
  exists (p : Prepared) (isValidScope isValidAttestationId : bool),
    prepares w self proof publicSignals p
    /\ (run w
          (attest self proof publicSignals isValidScope isValidAttestationId
             (user_identifier p) result)).2
       = Return o.
Proof.
  intros Hcall Hsettled.
  destruct (verify_called _ _ _ _ _ _ _ _ _ Hcall)
    as (p & Hp & _ & _ & _ & _ & _ & Hrun).
  rewrite Hsettled in Hrun. eauto 10.
Qed.

(** X4.  After an answer of the Verifier, the credential subject of the
    outcome has exactly fourteen keys: the merkle root of the signals, the
    attestation id as a string, the date read from the clock, the seven
    mandatory entries of the response as they are, the older-than entry as
    a string, and for each OFAC entry whether its string form is "1". *)
Theorem verify_credential_subject (w : World) (self : SelfBackendVerifier)
    (proof : ProofPoints.t) (publicSignals : list string)
    (v : Contract) (t : JsVal) (hub : VcAndDiscloseHubProof.t)
    (tys : list nat) (result : VerifyAllResult.t)
    (o : SelfVerificationResult.t) :
  In (CalledVerifyAll v t hub tys (Return result))
     (run w (verify self proof publicSignals)).1 ->
  (run w (verify self proof publicSignals)).2 = Return o ->
  let subject := SelfVerificationResult.credentialSubject o in
  let entry := field result in
  let is_one (k : nat) := JBoolean (String.eqb (ToString (entry k)) "1") in
  dom subject = list_to_set credential_subject_keys
  /\ subject !! "merkle_root"
     = Some
         (signal publicSignals
            (CircuitConstants.VC_AND_DISCLOSE_MERKLE_ROOT_INDEX
               CIRCUIT_CONSTANTS))
  /\ subject !! "attestation_id"
     = Some (JString (Number_toString (attestationId self)))
  /\ subject !! "current_date" = Some (JString (toISOString w))
  /\ subject !! "issuing_state"
     = Some (entry (RevealedDataTypes.issuing_state revealedDataTypes))
  /\ subject !! "name"
     = Some (entry (RevealedDataTypes.name revealedDataTypes))
  /\ subject !! "passport_number"
     = Some (entry (RevealedDataTypes.passport_number revealedDataTypes))
  /\ subject !! "nationality"
     = Some (entry (RevealedDataTypes.nationality revealedDataTypes))
  /\ subject !! "date_of_birth"
     = Some (entry (RevealedDataTypes.date_of_birth revealedDataTypes))
  /\ subject !! "gender"
     = Some (entry (RevealedDataTypes.gender revealedDataTypes))
  /\ subject !! "expiry_date"
     = Some (entry (RevealedDataTypes.expiry_date revealedDataTypes))
  /\ subject !! "older_than"
     = Some
         (JString
            (ToString
               (entry (RevealedDataTypes.older_than revealedDataTypes))))
  /\ subject !! "passport_no_ofac"
     = Some (is_one (RevealedDataTypes.passport_no_ofac revealedDataTypes))
  /\ subject !! "name_and_dob_ofac"
     = Some (is_one (RevealedDataTypes.name_and_dob_ofac revealedDataTypes))
  /\ subject !! "name_and_yob_ofac"
     = Some (is_one (RevealedDataTypes.name_and_yob_ofac revealedDataTypes)).
Proof.
  intros Hcall Hsettled subject entry is_one.
  destruct (verify_answered _ _ _ _ _ _ _ _ _ _ Hcall Hsettled)
    as (p & vs & va & _ & Hattest).
  apply attest_outcome in Hattest.
  destruct Hattest as (_ & _ & _ & _ & _ & Hsubject).
  subst subject entry is_one. rewrite Hsubject.
  split; [| repeat split; reflexivity].
  rewrite dom_list_to_map_L. reflexivity.
Qed.

(** X5.  After an answer of the Verifier, the outcome carries the user
    identifier converted from the public signals, the stored scope, the
    nullifier signal ([undefined] when the signals are too short), the proof
    and the signals as they were passed, and the error slot of the
    response, whatever the checks say. *)
Theorem verify_outcome_echo (w : World) (self : SelfBackendVerifier)
    (proof : ProofPoints.t) (publicSignals : list string)
    (v : Contract) (t : JsVal) (hub : VcAndDiscloseHubProof.t)
    (tys : list nat) (result : VerifyAllResult.t)
    (o : SelfVerificationResult.t) :
  In (CalledVerifyAll v t hub tys (Return result))
     (run w (verify self proof publicSignals)).1 ->
  (run w (verify self proof publicSignals)).2 = Return o ->
  (exists n : Z,
     BigInt
       (signal publicSignals
          (CircuitConstants.VC_AND_DISCLOSE_USER_IDENTIFIER_INDEX
             CIRCUIT_CONSTANTS))
     = Return n
     /\ castToUserIdentifier n (user_identifier_type self)
        = Return (SelfVerificationResult.userId o))
  /\ SelfVerificationResult.application o = scope self
  /\ SelfVerificationResult.nullifier o
     = default JUndefined
         (JString
          <$> publicSignals
              !! CircuitConstants.VC_AND_DISCLOSE_NULLIFIER_INDEX
                   CIRCUIT_CONSTANTS)
  /\ ProofValue.proof (SelfVerificationResult.proof o) = proof
  /\ ProofValue.publicSignals (SelfVerificationResult.proof o)
     = publicSignals
  /\ SelfVerificationResult.error o = VerifyAllResult.result_2 result.
Proof.
  intros Hcall Hsettled.
  destruct (verify_answered _ _ _ _ _ _ _ _ _ _ Hcall Hsettled)
    as (p & vs & va & Hp & Hattest).
  apply attest_outcome in Hattest.
  destruct Hattest as (Huser & Happ & Hnull & Hproof & Herror & _).
  destruct Hp as (_ & _ & _ & _ & _ & _ & _ & Hid & Huid).
  rewrite Huser, Happ, Hnull, Hproof, Herror.
  split; [eauto |]. repeat split.
  unfold signal, array_get. destruct (publicSignals !! _); reflexivity.
Qed.

(** *** The request and the policy *)

(** X6.  The fields requested from the Verifier are the ones the flags of
    the payload announce: the payload carries three OFAC flags, and the list
    is the seven mandatory fields followed by the optional field of each
    flag that is set, so it has seven entries plus one per set flag. *)
Theorem verify_request_consistent (w : World) (self : SelfBackendVerifier)
    (proof : ProofPoints.t) (publicSignals : list string)
    (v : Contract) (t : JsVal) (hub : VcAndDiscloseHubProof.t)
    (tys : list nat) (answer : Completion VerifyAllResult.t) :
  In (CalledVerifyAll v t hub tys answer)
     (run w (verify self proof publicSignals)).1 ->
  exists passportNo nameDob nameYob : bool,
    VcAndDiscloseHubProof.ofacEnabled hub = [passportNo; nameDob; nameYob]
    /\ tys
       = requested_fields (VcAndDiscloseHubProof.olderThanEnabled hub)
           passportNo nameDob nameYob
    /\ length tys = 7 + enabled_flags hub.
Proof.
  intros Hcall.
  destruct (verify_called _ _ _ _ _ _ _ _ _ Hcall)
    as (p & _ & _ & _ & -> & -> & _).
  exists (passportNoOfac self), (nameAndDobOfac self), (nameAndYobOfac self).
  rewrite types_requested_fields. unfold enabled_flags. cbn.
  split; [reflexivity |]. split; [reflexivity |].
  destruct (enabled (minimumAge self)), (passportNoOfac self),
    (nameAndDobOfac self), (nameAndYobOfac self); reflexivity.
Qed.

(** X7.  [excludeCountries] does not look at the codes themselves.  After
    it has accepted a list, every request of [verify] carries
    [forbiddenCountriesEnabled = true] and the packing of exactly that list;
    and when the packer refuses the list, every later [verify] throws the
    packer's error before any contract call. *)
Theorem excludeCountries_reaches_request
    (countries : list Country3LetterCode) (self self' : SelfBackendVerifier) :
  excludeCountries countries self = Return self' ->
  (forall (w : World) (proof : ProofPoints.t) (publicSignals : list string)
     (v : Contract) (t : JsVal) (hub : VcAndDiscloseHubProof.t)
     (tys : list nat) (answer : Completion VerifyAllResult.t),
     In (CalledVerifyAll v t hub tys answer)
        (run w (verify self' proof publicSignals)).1 ->
     VcAndDiscloseHubProof.forbiddenCountriesEnabled hub = true
     /\ packForbiddenCountriesList countries
        = Return (VcAndDiscloseHubProof.forbiddenCountriesListPacked hub))
  /\ (forall (e : JsVal) (w : World) (proof : ProofPoints.t)
        (publicSignals : list string),
        packForbiddenCountriesList countries = Throw e ->
        run w (verify self' proof publicSignals) = ([], Throw e)).
Proof.
  unfold excludeCountries.
  destruct (40 <? length countries)%nat; [discriminate |].
  intros [= <-]. split.
  - intros w proof publicSignals v t hub tys answer Hcall.
    destruct (verify_called _ _ _ _ _ _ _ _ _ Hcall)
      as (p & Hp & _ & _ & -> & _).
    destruct Hp as (Hpack & _). cbn in Hpack |- *. auto.
  - intros e w proof publicSignals Hpack.
    unfold verify. rewrite run_eval. cbn. rewrite Hpack. reflexivity.
Qed.

(** *** The nationality check is local *)

(** The statements after the [try] under a policy that differs in the
    nationality check only: they settle alike, and the outcomes differ at
    most in the nationality check and the overall validity. *)
Lemma attest_setNationality (w : World) (self : SelfBackendVerifier)
    (country : Country3LetterCode) (proof : ProofPoints.t)
    (publicSignals : list string) (vs va : bool) (uid : string)
    (result : VerifyAllResult.t) :
  match
    (run w (attest self proof publicSignals vs va uid result)).2,
    (run w (attest (setNationality country self) proof publicSignals vs va
              uid result)).2
  with
  | Return o, Return o' =>
      SelfVerificationResult.userId o' = SelfVerificationResult.userId o
      /\ SelfVerificationResult.application o'
         = SelfVerificationResult.application o
      /\ SelfVerificationResult.nullifier o'
         = SelfVerificationResult.nullifier o
      /\ SelfVerificationResult.credentialSubject o'
         = SelfVerificationResult.credentialSubject o
      /\ SelfVerificationResult.proof o' = SelfVerificationResult.proof o
      /\ SelfVerificationResult.error o' = SelfVerificationResult.error o
      /\ IsValidDetails.isValidScope (SelfVerificationResult.isValidDetails o')
         = IsValidDetails.isValidScope
             (SelfVerificationResult.isValidDetails o)
      /\ IsValidDetails.isValidAttestationId
           (SelfVerificationResult.isValidDetails o')
         = IsValidDetails.isValidAttestationId
             (SelfVerificationResult.isValidDetails o)
      /\ IsValidDetails.isValidProof (SelfVerificationResult.isValidDetails o')
         = IsValidDetails.isValidProof
             (SelfVerificationResult.isValidDetails o)
  | Throw e, Throw e' => e' = e
  | _, _ => False
  end.
Proof.
  unfold attest. cbn [run].
  repeat (rewrite !run_eval;
          match goal with
          | |- context [match ?c with Return _ => _ | Throw _ => _ end] =>
              destruct c; [| cbn [run fst snd]; reflexivity]
          end).
  cbn. auto 10.
Qed.

(** X8.  The nationality set by [setNationality] is never sent: with or
    without it [verify] makes the same calls with the same arguments, and
    settles alike, with the same error or with outcomes that differ at most
    in [isValidNationality] and [isValid]. *)
Theorem setNationality_checked_locally (w : World)
    (self : SelfBackendVerifier) (country : Country3LetterCode)
    (proof : ProofPoints.t) (publicSignals : list string) :
  let r := run w (verify self proof publicSignals) in
  let r' := run w (verify (setNationality country self) proof publicSignals) in
  r'.1 = r.1
  /\ match r.2, r'.2 with
     | Return o, Return o' =>
         SelfVerificationResult.userId o' = SelfVerificationResult.userId o
         /\ SelfVerificationResult.application o'
            = SelfVerificationResult.application o
         /\ SelfVerificationResult.nullifier o'
            = SelfVerificationResult.nullifier o
         /\ SelfVerificationResult.credentialSubject o'
            = SelfVerificationResult.credentialSubject o
         /\ SelfVerificationResult.proof o' = SelfVerificationResult.proof o
         /\ SelfVerificationResult.error o' = SelfVerificationResult.error o
         /\ IsValidDetails.isValidScope
              (SelfVerificationResult.isValidDetails o')
            = IsValidDetails.isValidScope
                (SelfVerificationResult.isValidDetails o)
         /\ IsValidDetails.isValidAttestationId
              (SelfVerificationResult.isValidDetails o')
            = IsValidDetails.isValidAttestationId
                (SelfVerificationResult.isValidDetails o)
         /\ IsValidDetails.isValidProof
              (SelfVerificationResult.isValidDetails o')
            = IsValidDetails.isValidProof
                (SelfVerificationResult.isValidDetails o)
     | Throw e, Throw e' => e' = e
     | _, _ => False
     end.
Proof.
  intros r r'. subst r r'. unfold verify, await, try_await.
  cbn [setNationality set_nationality scope attestationId
         user_identifier_type excludedCountries registryContract
         verifyAllContract].
  repeat (rewrite !run_eval;
          match goal with
          | |- context [match ?c with Return _ => _ | Throw _ => _ end] =>
              destruct c; [| cbn [run fst snd]; auto]
          end;
          cbn [run]).
  change (vcAndDiscloseHubProof (setNationality country self))
    with (vcAndDiscloseHubProof self).
  change (types (setNationality country self)) with (types self).
  change (caught (setNationality country self)) with (caught self).
  destruct (verifyAll w _ _ _ _) as [result | error].
  - match goal with
    | |- context [run w (attest self ?pr ?ps ?vs ?va ?u ?r)] =>
        pose proof (attest_setNationality w self country pr ps vs va u r)
          as Hboth;
        destruct (run_attest w self pr ps vs va u r) as [s1 H1];
        destruct (run_attest w (setNationality country self) pr ps vs va u r)
          as [s2 H2]
    end.
    rewrite H1, H2 in Hboth |- *. cbn [fst snd] in Hboth |- *.
    split; [reflexivity | exact Hboth].
  - cbn. auto 10.
Qed.


(** *** Sequences of setter calls *)

(** What holds before a call and is kept by every call holds at the end. *)
Lemma configure_ind (P : SelfBackendVerifier -> Prop) :
  (forall c s, P s -> P (after c s)) ->
  forall calls s, P s -> P (configure calls s).
Proof.
  intros Hstep calls. unfold configure.
  induction calls as [| c calls IH]; intros s Hs; cbn; auto.
Qed.

(** Splitting a call into its setter and the branch it takes. *)
Ltac setter_cases c :=
  destruct c; unfold after, call, setMinimumAge, excludeCountries;
  repeat match goal with
         | |- context [if ?b then _ else _] => destruct b eqn:?
         end;
  cbn.

(** X9.  No sequence of setter calls, failed calls included, changes the
    scope hash, the attestation id, the kind of user identifier, the target
    root timestamp, the two contracts or the network flag. *)
Theorem configure_keeps_identity (calls : list SetterCall)
    (self : SelfBackendVerifier) :
  let s := configure calls self in
  scope s = scope self
  /\ attestationId s = attestationId self
  /\ user_identifier_type s = user_identifier_type self
  /\ targetRootTimestamp s = targetRootTimestamp self
  /\ registryContract s = registryContract self
  /\ verifyAllContract s = verifyAllContract self
  /\ mockPassport s = mockPassport self.
Proof.
  cbv zeta.
  apply (configure_ind
           (fun s =>
              scope s = scope self /\ attestationId s = attestationId self
              /\ user_identifier_type s = user_identifier_type self
              /\ targetRootTimestamp s = targetRootTimestamp self
              /\ registryContract s = registryContract self
              /\ verifyAllContract s = verifyAllContract self
              /\ mockPassport s = mockPassport self));
    [| auto 10].
  intros c s Hs. setter_cases c; exact Hs.
Qed.

(** An optional field stays when its flag stays. *)
Lemma optional_field_sublist (flag flag' : bool) (x : nat) :
  (flag = true -> flag' = true) ->
  sublist (if flag then [x] else []) (if flag' then [x] else []).
Proof.
  intros Hflag. destruct flag; [rewrite (Hflag eq_refl); reflexivity |].
  apply sublist_nil_l.
Qed.

(** Setting flags can only add to the requested fields. *)
Lemma requested_fields_sublist (a1 b1 c1 d1 a2 b2 c2 d2 : bool) :
  (a1 = true -> a2 = true) -> (b1 = true -> b2 = true) ->
  (c1 = true -> c2 = true) -> (d1 = true -> d2 = true) ->
  sublist (requested_fields a1 b1 c1 d1) (requested_fields a2 b2 c2 d2).
Proof.
  intros Ha Hb Hc Hd. unfold requested_fields.
  repeat apply sublist_app; try reflexivity;
    apply optional_field_sublist; assumption.
Qed.

(** X10.  The interface has no way back: along any sequence of setter
    calls a check that is enabled stays enabled and an OFAC flag that is set
    stays set, so the fields requested before are still requested, in the
    same order, after. *)
Theorem configure_never_disables (calls : list SetterCall)
    (self : SelfBackendVerifier) :
  let s := configure calls self in
  (enabled (minimumAge self) = true -> enabled (minimumAge s) = true)
  /\ (enabled (nationality self) = true -> enabled (nationality s) = true)
  /\ (enabled (excludedCountries self) = true ->
      enabled (excludedCountries s) = true)
  /\ (passportNoOfac self = true -> passportNoOfac s = true)
  /\ (nameAndDobOfac self = true -> nameAndDobOfac s = true)
  /\ (nameAndYobOfac self = true -> nameAndYobOfac s = true)
  /\ sublist (types self) (types s).
Proof.
  cbv zeta.
  assert (Hflags :
            (enabled (minimumAge self) = true ->
             enabled (minimumAge (configure calls self)) = true)
            /\ (enabled (nationality self) = true ->
                enabled (nationality (configure calls self)) = true)
            /\ (enabled (excludedCountries self) = true ->
                enabled (excludedCountries (configure calls self)) = true)
            /\ (passportNoOfac self = true ->
                passportNoOfac (configure calls self) = true)
            /\ (nameAndDobOfac self = true ->
                nameAndDobOfac (configure calls self) = true)
            /\ (nameAndYobOfac self = true ->
                nameAndYobOfac (configure calls self) = true)).
  { apply (configure_ind
             (fun s =>
                (enabled (minimumAge self) = true ->
                 enabled (minimumAge s) = true)
                /\ (enabled (nationality self) = true ->
                    enabled (nationality s) = true)
                /\ (enabled (excludedCountries self) = true ->
                    enabled (excludedCountries s) = true)
                /\ (passportNoOfac self = true -> passportNoOfac s = true)
                /\ (nameAndDobOfac self = true -> nameAndDobOfac s = true)
                /\ (nameAndYobOfac self = true -> nameAndYobOfac s = true)));
      [| tauto].
    intros c s Hs. setter_cases c; tauto. }
  destruct Hflags as (Hage & Hnat & Hexcl & Hpass & Hdob & Hyob).
  repeat split; try assumption.
  rewrite !types_requested_fields.
  apply requested_fields_sublist; assumption.
Qed.

(** X11.  Calls of two different setters commute: the verifier they leave
    is the same in either order, whether or not one of them throws. *)
Theorem setters_commute (c1 c2 : SetterCall) (self : SelfBackendVerifier) :
  setter_index c1 <> setter_index c2 ->
  after c2 (after c1 self) = after c1 (after c2 self).
Proof.
  intros Hdiff.
  destruct c1, c2; try (exfalso; apply Hdiff; reflexivity);
    unfold after, call, setMinimumAge, excludeCountries;
    repeat match goal with
           | |- context [if ?b then _ else _] => destruct b
           end;
    reflexivity.
Qed.

(** X12.  Of two calls of the same setter the last one that is accepted
    decides: when the second call is accepted the first leaves no trace,
    and when the second call throws the verifier is as the first left it. *)
Theorem setters_last_call_wins (c1 c2 : SetterCall)
    (self : SelfBackendVerifier) :
  setter_index c1 = setter_index c2 ->
  ((exists r, call c2 self = Return r) ->
   after c2 (after c1 self) = after c2 self)
  /\ ((exists e, call c2 self = Throw e) ->
      after c2 (after c1 self) = after c1 self).
Proof.
  intros Hsame.
  destruct c1, c2; try discriminate Hsame;
    unfold after, call, setMinimumAge, excludeCountries;
    repeat match goal with
           | |- context [if ?b then _ else _] => destruct b
           end;
    split; intros [r Hr]; try discriminate Hr; reflexivity.
Qed.

(** *** Verifiers built by the constructor *)

(** X13.  For a verifier built by the constructor and then configured by
    any sequence of setter calls: the scope is the hash of the endpoint and
    the scope given (in that order), the attestation id is 1, the kind of
    user identifier is the one given; the exclusion list has at most 40
    codes and is empty while the check is disabled; the nationality is the
    empty string while its check is disabled; and the stored minimum age is
    "18" while the check is disabled, and otherwise the string of an age
    that is neither <= 0 nor > 100. *)
Theorem constructed_invariant (scope0 endpoint : string)
    (user_identifier_type0 : UserIdType) (mockPassport0 : bool)
    (s0 : SelfBackendVerifier) (calls : list SetterCall) :
  constructor scope0 endpoint user_identifier_type0 mockPassport0
  = Return s0 ->
  let s := configure calls s0 in
  hashEndpointWithScope endpoint scope0 = Return (scope s)
  /\ attestationId s = Number_of_Z 1
  /\ user_identifier_type s = user_identifier_type0
  /\ length (value (excludedCountries s)) <= 40
  /\ (enabled (excludedCountries s) = false ->
      value (excludedCountries s) = [])
  /\ (enabled (nationality s) = false -> value (nationality s) = "")
  /\ (if enabled (minimumAge s)
      then exists age : number,
             value (minimumAge s) = Number_toString age
             /\ Number_le age (Number_of_Z 0) = false
             /\ Number_gt age (Number_of_Z 100) = false
      else value (minimumAge s) = "18").
Proof.
  intros Hnew. cbv zeta.
  apply (configure_ind
           (fun s =>
              hashEndpointWithScope endpoint scope0 = Return (scope s)
              /\ attestationId s = Number_of_Z 1
              /\ user_identifier_type s = user_identifier_type0
              /\ length (value (excludedCountries s)) <= 40
              /\ (enabled (excludedCountries s) = false ->
                  value (excludedCountries s) = [])
              /\ (enabled (nationality s) = false ->
                  value (nationality s) = "")
              /\ (if enabled (minimumAge s)
                  then exists age : number,
                         value (minimumAge s) = Number_toString age
                         /\ Number_le age (Number_of_Z 0) = false
                         /\ Number_gt age (Number_of_Z 100) = false
                  else value (minimumAge s) = "18"))).
  - intros c s Hs.
    destruct Hs as (Hscope & Hid & Htype & Hlen & Hoff & Hnat & Hage).
    destruct c as [age | country | countries | | |]; unfold after, call.
    + unfold setMinimumAge.
      destruct (Number_le age (Number_of_Z 0)) eqn:Hle; [tauto |].
      destruct (Number_gt age (Number_of_Z 100)) eqn:Hgt; [tauto |].
      cbn. do 6 (split; [assumption |]). eauto.
    + cbn. do 5 (split; [assumption |]). split; [discriminate | assumption].
    + unfold excludeCountries.
      destruct (40 <? length countries)%nat eqn:Hlong; [tauto |].
      cbn. do 3 (split; [assumption |]).
      split; [apply Nat.ltb_ge; assumption |].
      split; [discriminate |]. split; assumption.
    + cbn. tauto.
    + cbn. tauto.
    + cbn. tauto.
  - unfold constructor in Hnew.
    destruct (hashEndpointWithScope endpoint scope0) as [hashed | e];
      [| discriminate Hnew].
    injection Hnew as <-. cbn. repeat split; auto. lia.
Qed.

(** Every contract call of [verify] is made on the contracts of the
    verifier. *)
Lemma verify_events_on_contracts (w : World) (self : SelfBackendVerifier)
    (proof : ProofPoints.t) (publicSignals : list string) :
  Forall (on_contracts_of self) (run w (verify self proof publicSignals)).1.
Proof.
  destruct (verify_run_shape w self proof publicSignals)
    as [[p Hp] | [(e & Hrun & _) | [[e Hrun] | [(root & e & Hrun)
       | (root & time & e & Hrun & _)]]]].
  - rewrite (verify_prepared_events _ _ _ _ _ Hp).
    destruct (verifyAll w _ _ _ _); repeat constructor.
  - rewrite Hrun. constructor.
  - rewrite Hrun. repeat constructor.
  - rewrite Hrun. repeat constructor.
  - rewrite Hrun. repeat constructor.
Qed.

(** X14.  The network is chosen once, by the constructor: with
    [mockPassport] the two contracts are the staging addresses on the
    testnet node, otherwise the production addresses on the mainnet node;
    and whatever setters are called afterwards, every call of [verify] goes
    to these two contracts, the Registry calls to the first and the Verifier
    call to the second. *)
Theorem constructed_network (scope0 endpoint : string)
    (user_identifier_type0 : UserIdType) (mockPassport0 : bool)
    (s0 : SelfBackendVerifier) (calls : list SetterCall) (w : World)
    (proof : ProofPoints.t) (publicSignals : list string) :
  constructor scope0 endpoint user_identifier_type0 mockPassport0
  = Return s0 ->
  registryContract s0
  = {| target :=
         if mockPassport0 then REGISTRY_ADDRESS_STAGING
         else REGISTRY_ADDRESS;
       rpcUrl :=
         if mockPassport0 then CELO_TESTNET_RPC_URL
         else CELO_MAINNET_RPC_URL |}
  /\ verifyAllContract s0
     = {| target :=
            if mockPassport0 then VERIFYALL_ADDRESS_STAGING
            else VERIFYALL_ADDRESS;
          rpcUrl :=
            if mockPassport0 then CELO_TESTNET_RPC_URL
            else CELO_MAINNET_RPC_URL |}
  /\ Forall (on_contracts_of s0)
       (run w (verify (configure calls s0) proof publicSignals)).1.
Proof.
  intros Hnew.
  assert (Hsame :
            registryContract (configure calls s0) = registryContract s0
            /\ verifyAllContract (configure calls s0) = verifyAllContract s0).
  { apply (configure_ind
             (fun s =>
                registryContract s = registryContract s0
                /\ verifyAllContract s = verifyAllContract s0));
      [| auto].
    intros c s Hs. setter_cases c; exact Hs. }
  destruct Hsame as [Hregistry Hverifier].
  unfold constructor in Hnew.
  destruct (hashEndpointWithScope endpoint scope0) as [hashed | e];
    [| discriminate Hnew].
  split; [injection Hnew as <-; reflexivity |].
  split; [injection Hnew as <-; reflexivity |].
  eapply Forall_impl; [apply verify_events_on_contracts |].
  intros ev. unfold on_contracts_of.
  rewrite Hregistry, Hverifier. tauto.
Qed.

(** X15.  The verifier that the constructor builds has every optional
    check off: its request asks for the seven mandatory fields only and
    carries [olderThanEnabled = false] with [olderThan = "18"],
    [forbiddenCountriesEnabled = false] with the packing of the empty list,
    and three OFAC flags that are false. *)
Theorem constructed_first_request (scope0 endpoint : string)
    (user_identifier_type0 : UserIdType) (mockPassport0 : bool)
    (s0 : SelfBackendVerifier) (w : World) (proof : ProofPoints.t)
    (publicSignals : list string) (v : Contract) (t : JsVal)
    (hub : VcAndDiscloseHubProof.t) (tys : list nat)
    (answer : Completion VerifyAllResult.t) :
  constructor scope0 endpoint user_identifier_type0 mockPassport0
  = Return s0 ->
  In (CalledVerifyAll v t hub tys answer)
     (run w (verify s0 proof publicSignals)).1 ->
  tys = mandatory_fields
  /\ VcAndDiscloseHubProof.olderThanEnabled hub = false
  /\ VcAndDiscloseHubProof.olderThan hub = "18"
  /\ VcAndDiscloseHubProof.forbiddenCountriesEnabled hub = false
  /\ packForbiddenCountriesList []
     = Return (VcAndDiscloseHubProof.forbiddenCountriesListPacked hub)
  /\ VcAndDiscloseHubProof.ofacEnabled hub = [false; false; false].
Proof.
  unfold constructor.
  destruct (hashEndpointWithScope endpoint scope0) as [hashed | e0];
    [| discriminate].
  intros [= <-] Hcall.
  destruct (verify_called _ _ _ _ _ _ _ _ _ Hcall)
    as (p & Hp & _ & _ & -> & -> & _).
  destruct Hp as (Hpack & _). cbn in Hpack |- *. auto 10.
Qed.

(** *** Whole ages *)

(** The decimal digits of an integer read back as that integer. *)
Lemma decimal_parses (z : Z) :
  Z.of_int <$> NilZero.int_of_string (decimal z) = Some z.
Proof.
  unfold decimal. rewrite NilZero.isi.
  - cbn. f_equal. apply DecimalZ.of_to.
  - destruct z; cbn; try discriminate.
    intros [= H]. exact (Unsigned.to_uint_nonnil _ H).
  - destruct z; cbn; try discriminate.
    intros [= H]. exact (Unsigned.to_uint_nonnil _ H).
Qed.

(** X16.  Every whole age from 1 to 100 is accepted by [setMinimumAge] and
    stored as its decimal digits, which read back as the age; the request
    of a later [verify] carries these digits as [olderThan]. *)
Theorem setMinimumAge_whole_age (n : Z) (self : SelfBackendVerifier) :
  (1 <= n <= 100)%Z ->
  exists self' : SelfBackendVerifier,
    setMinimumAge (Number_of_Z n) self = Return self'
    /\ minimumAge self' = {| enabled := true; value := decimal n |}
    /\ Z.of_int <$> NilZero.int_of_string (value (minimumAge self')) = Some n
    /\ forall (w : World) (proof : ProofPoints.t)
         (publicSignals : list string) (v : Contract) (t : JsVal)
         (hub : VcAndDiscloseHubProof.t) (tys : list nat)
         (answer : Completion VerifyAllResult.t),
         In (CalledVerifyAll v t hub tys answer)
            (run w (verify self' proof publicSignals)).1 ->
         VcAndDiscloseHubProof.olderThan hub = decimal n.
Proof.
  intros Hn. unfold setMinimumAge.
  assert (Hle : Number_le (Number_of_Z n) (Number_of_Z 0) = false).
  { unfold Number_le, Number_of_Z. apply not_true_is_false.
    rewrite Qle_bool_iff, <- Zle_Qle. lia. }
  assert (Hgt : Number_gt (Number_of_Z n) (Number_of_Z 100) = false).
  { unfold Number_gt, Number_lt, Number_of_Z. apply negb_false_iff.
    rewrite Qle_bool_iff, <- Zle_Qle. lia. }
  rewrite Hle, Hgt. eexists. split; [reflexivity |].
  rewrite Number_toString_integer by lia. cbn.
  split; [reflexivity |]. split; [apply decimal_parses |].
  intros w proof publicSignals v t hub tys answer Hcall.
  destruct (verify_called _ _ _ _ _ _ _ _ _ Hcall)
    as (p & _ & _ & _ & -> & _).
  reflexivity.
Qed.

End Properties.

(** ** The properties on the concrete runtime *)

Section Witnesses.
#[local] Existing Instance Sample.runtime.

Example constructor_sample :
  constructor "my-app" "https://example.org/api/verify" "uuid" false
  = Return Sample.verifier.
Proof. vm_compute. reflexivity. Qed.

(** Scenario A: no optional check, matching scope and attestation id, a
    response that is valid. *)
Example scenario_A :
  (run Sample.world
     (verify Sample.verifier Sample.proof Sample.publicSignals)).2
  = Return Sample.attestation.
Proof. vm_compute. reflexivity. Qed.

(** The comparison of the scope is exact: letter case matters. *)
Example scope_check_is_case_sensitive :
  strict_equals_string "0xab" (JString "0xAB") = false
  /\ strict_equals_string "0xab" (JString "0xab") = true.
Proof. split; reflexivity. Qed.

(** The string conversion of an array joins its elements. *)
Example ToString_array :
  ToString
    (JArray [JNumber (Number_of_Z 1); JNull;
             JArray [JString "a"; JBoolean true]; JBigInt (-7)])
  = "1,,a,true,-7".
Proof. vm_compute. reflexivity. Qed.

(** Ages that are whole numbers are stored as their decimal digits; NaN
    passes both guards. *)
Example setMinimumAge_values :
  minimumAge
  <$> [Sample.configured (setMinimumAge (Number_of_Z 1) Sample.verifier);
       Sample.configured (setMinimumAge (Number_of_Z 100) Sample.verifier);
       Sample.configured (setMinimumAge NaN Sample.verifier)]
  = [{| enabled := true; value := "1" |};
     {| enabled := true; value := "100" |};
     {| enabled := true; value := "NaN" |}].
Proof. vm_compute. reflexivity. Qed.

(** Scenario A, where the four checks hold, and scenario B, where the scope
    of the signals is another one. *)
Lemma verify_checks_witness :
  let d := SelfVerificationResult.isValidDetails Sample.attestation in
  ((run Sample.world
      (verify Sample.verifier Sample.proof Sample.publicSignals)).2
   = Return Sample.attestation
   /\ (IsValidDetails.isValidScope d = true
       <-> Sample.publicSignals !! 19 = Some "36")
   /\ (IsValidDetails.isValidAttestationId d = true
       <-> Sample.publicSignals !! 8 = Some "1")
   /\ IsValidDetails.isValidProof d = true
   /\ SelfVerificationResult.isValid Sample.attestation
      = IsValidDetails.isValidProof d && IsValidDetails.isValidScope d
        && IsValidDetails.isValidAttestationId d
        && IsValidDetails.isValidNationality d)
  /\ ((run Sample.world
         (verify Sample.verifier Sample.proof
            Sample.publicSignals_other_scope)).2
      = Return Sample.attestation_wrong_scope
      /\ Sample.publicSignals_other_scope !! 19 = Some "63"
      /\ SelfVerificationResult.isValid Sample.attestation_wrong_scope
         = false).
Proof.
  assert (Hcall :
            In (CalledVerifyAll (verifyAllContract Sample.verifier)
                  (JBigInt 1700000000) (Sample.payload Sample.verifier)
                  [0; 1; 2; 3; 4; 5; 6] (Return Sample.response))
               (run Sample.world
                  (verify Sample.verifier Sample.proof
                     Sample.publicSignals)).1).
  { vm_compute. right; right; left; reflexivity. }
  assert (Hsettled :
            (run Sample.world
               (verify Sample.verifier Sample.proof Sample.publicSignals)).2
            = Return Sample.attestation).
  { vm_compute. reflexivity. }
  assert (Hcall' :
            In (CalledVerifyAll (verifyAllContract Sample.verifier)
                  (JBigInt 1700000000)
                  (Sample.payload_for Sample.verifier
                     Sample.publicSignals_other_scope)
                  [0; 1; 2; 3; 4; 5; 6] (Return Sample.response))
               (run Sample.world
                  (verify Sample.verifier Sample.proof
                     Sample.publicSignals_other_scope)).1).
  { vm_compute. right; right; left; reflexivity. }
  assert (Hsettled' :
            (run Sample.world
               (verify Sample.verifier Sample.proof
                  Sample.publicSignals_other_scope)).2
            = Return Sample.attestation_wrong_scope).
  { vm_compute. reflexivity. }
  destruct (verify_checks _ _ _ _ _ _ _ _ _ _ Hcall Hsettled)
    as (Hscope & Hid & Hproof & Hand & _).
  destruct (verify_checks _ _ _ _ _ _ _ _ _ _ Hcall' Hsettled')
    as (_ & _ & _ & _ & Hfalse).
  split.
  - exact (conj Hsettled (conj Hscope (conj Hid (conj Hproof Hand)))).
  - exact (conj Hsettled'
             (conj eq_refl (Hfalse (or_intror (or_introl eq_refl))))).
Defined.

(** Scenario C: the response says FRA, the policy asks for USA; and the
    same response under a policy without the check. *)
Lemma verify_nationality_witness :
  let o := Sample.attestation_wrong_nationality in
  ((run Sample.world
      (verify Sample.verifier_usa Sample.proof Sample.publicSignals)).2
   = Return o
   /\ field Sample.response 3 = JString "FRA"
   /\ IsValidDetails.isValidNationality
        (SelfVerificationResult.isValidDetails o) = false
   /\ SelfVerificationResult.isValid o = false)
  /\ ((run Sample.world
         (verify Sample.verifier Sample.proof Sample.publicSignals)).2
      = Return Sample.attestation
      /\ IsValidDetails.isValidNationality
           (SelfVerificationResult.isValidDetails Sample.attestation)
         = true).
Proof.
  assert (Hcall :
            In (CalledVerifyAll (verifyAllContract Sample.verifier_usa)
                  (JBigInt 1700000000) (Sample.payload Sample.verifier_usa)
                  [0; 1; 2; 3; 4; 5; 6] (Return Sample.response))
               (run Sample.world
                  (verify Sample.verifier_usa Sample.proof
                     Sample.publicSignals)).1).
  { vm_compute. right; right; left; reflexivity. }
  assert (Hsettled :
            (run Sample.world
               (verify Sample.verifier_usa Sample.proof
                  Sample.publicSignals)).2
            = Return Sample.attestation_wrong_nationality).
  { vm_compute. reflexivity. }
  assert (Hcall' :
            In (CalledVerifyAll (verifyAllContract Sample.verifier)
                  (JBigInt 1700000000) (Sample.payload Sample.verifier)
                  [0; 1; 2; 3; 4; 5; 6] (Return Sample.response))
               (run Sample.world
                  (verify Sample.verifier Sample.proof
                     Sample.publicSignals)).1).
  { vm_compute. right; right; left; reflexivity. }
  assert (Hsettled' :
            (run Sample.world
               (verify Sample.verifier Sample.proof Sample.publicSignals)).2
            = Return Sample.attestation).
  { vm_compute. reflexivity. }
  destruct (verify_nationality _ _ _ _ _ _ _ _ _ _ Hcall Hsettled)
    as [_ Hon].
  destruct (Hon eq_refl) as [_ Hdiff].
  destruct (verify_nationality _ _ _ _ _ _ _ _ _ _ Hcall' Hsettled')
    as [Hoff _].
  assert (Hfra : field Sample.response 3 = JString "FRA").
  { vm_compute. reflexivity. }
  assert (Hne :
            field Sample.response
              (RevealedDataTypes.nationality revealedDataTypes)
            <> JString (value (nationality Sample.verifier_usa))).
  { vm_compute. discriminate. }
  split.
  - exact (conj Hsettled (conj Hfra (Hdiff Hne))).
  - exact (conj Hsettled' (Hoff eq_refl)).
Defined.

(** A policy that requests the seven mandatory fields only: with a full
    response [verify] returns, with a response that holds just the
    requested fields it throws. *)
Lemma verify_decodes_optional_fields_witness :
  (decodable Sample.response
   /\ exists o,
        (run Sample.world
           (verify Sample.verifier Sample.proof Sample.publicSignals)).2
        = Return o)
  /\ (types Sample.verifier = [0; 1; 2; 3; 4; 5; 6]
      /\ ~ decodable Sample.response_mandatory_only
      /\ exists message,
           (run Sample.world_mandatory_only
              (verify Sample.verifier Sample.proof Sample.publicSignals)).2
           = Throw (TypeError message)).
Proof.
  assert (Hdec : decodable Sample.response).
  { vm_compute. auto. }
  assert (Hnot : ~ decodable Sample.response_mandatory_only).
  { intros [H _]. vm_compute in H. discriminate H. }
  split.
  - split; [exact Hdec |].
    apply (verify_decodes_optional_fields Sample.world Sample.verifier
             Sample.proof Sample.publicSignals
             (verifyAllContract Sample.verifier) (JBigInt 1700000000)
             (Sample.payload Sample.verifier) [0; 1; 2; 3; 4; 5; 6]
             Sample.response).
    + vm_compute. right; right; left; reflexivity.
    + exact Hdec.
  - split; [reflexivity |]. split; [exact Hnot |].
    apply (verify_decodes_optional_fields Sample.world_mandatory_only
             Sample.verifier Sample.proof Sample.publicSignals
             (verifyAllContract Sample.verifier) (JBigInt 1700000000)
             (Sample.payload Sample.verifier) [0; 1; 2; 3; 4; 5; 6]
             Sample.response_mandatory_only).
    + vm_compute. right; right; left; reflexivity.
    + exact Hnot.
Defined.

(** Scenario D: the call of the Verifier reverts. *)
Lemma verify_catches_verifier_failure_witness :
  (run Sample.world_reverting
     (verify Sample.verifier Sample.proof Sample.publicSignals)).2
  = Return
      {| SelfVerificationResult.isValid := false;
         SelfVerificationResult.isValidDetails :=
           {| IsValidDetails.isValidScope := false;
              IsValidDetails.isValidAttestationId := false;
              IsValidDetails.isValidProof := false;
              IsValidDetails.isValidNationality := false |};
         SelfVerificationResult.userId := "42";
         SelfVerificationResult.application := "36";
         SelfVerificationResult.nullifier := JString "555";
         SelfVerificationResult.credentialSubject := ∅;
         SelfVerificationResult.proof :=
           {| ProofValue.proof := Sample.proof;
              ProofValue.publicSignals := Sample.publicSignals |};
         SelfVerificationResult.error := Sample.reverted |}.
Proof.
  assert (Hcall :
            In (CalledVerifyAll (verifyAllContract Sample.verifier)
                  (JBigInt 1700000000) (Sample.payload Sample.verifier)
                  [0; 1; 2; 3; 4; 5; 6] (Throw Sample.reverted))
               (run Sample.world_reverting
                  (verify Sample.verifier Sample.proof
                     Sample.publicSignals)).1).
  { vm_compute. right; right; left; reflexivity. }
  destruct (verify_catches_verifier_failure _ _ _ _ _ _ _ _ _ Hcall)
    as (identifier & user_identifier & Hid & Huid & Hrun).
  vm_compute in Hid. injection Hid as <-.
  vm_compute in Huid. injection Huid as <-.
  exact Hrun.
Defined.

(** Scenario E: minimum age 18 and the passport-number OFAC check. *)
Lemma verify_requested_fields_witness :
  let tys := [0; 1; 2; 3; 4; 5; 6; 7; 8] in
  In (CalledVerifyAll (verifyAllContract Sample.verifier_age_ofac)
        (JBigInt 1700000000) (Sample.payload Sample.verifier_age_ofac) tys
        (Return Sample.response))
     (run Sample.world
        (verify Sample.verifier_age_ofac Sample.proof
           Sample.publicSignals)).1
  /\ tys = requested_fields true true false false
  /\ length tys = 9.
Proof.
  assert (Hcall :
            In (CalledVerifyAll (verifyAllContract Sample.verifier_age_ofac)
                  (JBigInt 1700000000)
                  (Sample.payload Sample.verifier_age_ofac)
                  [0; 1; 2; 3; 4; 5; 6; 7; 8] (Return Sample.response))
               (run Sample.world
                  (verify Sample.verifier_age_ofac Sample.proof
                     Sample.publicSignals)).1).
  { vm_compute. right; right; left; reflexivity. }
  destruct (verify_requested_fields _ _ _ _ _ _ _ _ _ Hcall)
    as [Hfields Hnine].
  destruct (Hnine eq_refl eq_refl eq_refl eq_refl) as [Hlength _].
  exact (conj Hcall (conj Hfields Hlength)).
Defined.

(** The proof [[3, 4], [5, 6]] is sent as [[4, 3], [6, 5]], under the
    default policy and under the policy of scenario E alike. *)
Lemma verify_swaps_b_columns_witness :
  let sent :=
    VcAndDiscloseHubProof.vcAndDiscloseProof
      (Sample.payload Sample.verifier) in
  ProofPoints.b Sample.proof
  = JArray [JArray [JString "3"; JString "4"];
            JArray [JString "5"; JString "6"]]
  /\ VcAndDiscloseProof.b sent
     = JArray [JArray [JString "4"; JString "3"];
               JArray [JString "6"; JString "5"]]
  /\ VcAndDiscloseProof.a sent = ProofPoints.a Sample.proof
  /\ VcAndDiscloseProof.c sent = ProofPoints.c Sample.proof
  /\ VcAndDiscloseProof.pubSignals sent = Sample.publicSignals
  /\ VcAndDiscloseHubProof.vcAndDiscloseProof
       (Sample.payload Sample.verifier_age_ofac)
     = sent.
Proof.
  assert (Hcall :
            In (CalledVerifyAll (verifyAllContract Sample.verifier)
                  (JBigInt 1700000000) (Sample.payload Sample.verifier)
                  [0; 1; 2; 3; 4; 5; 6] (Return Sample.response))
               (run Sample.world
                  (verify Sample.verifier Sample.proof
                     Sample.publicSignals)).1).
  { vm_compute. right; right; left; reflexivity. }
  assert (Hcall' :
            In (CalledVerifyAll (verifyAllContract Sample.verifier_age_ofac)
                  (JBigInt 1700000000)
                  (Sample.payload Sample.verifier_age_ofac)
                  [0; 1; 2; 3; 4; 5; 6; 7; 8] (Throw Sample.reverted))
               (run Sample.world_reverting
                  (verify Sample.verifier_age_ofac Sample.proof
                     Sample.publicSignals)).1).
  { vm_compute. right; right; left; reflexivity. }
  destruct (verify_swaps_b_columns _ _ _ _ _ _ _ _ _ Hcall)
    as (Ha & Hc & Hsignals & _ & Hswap & Hsame).
  exact (conj eq_refl
           (conj (Hswap _ _ _ _ eq_refl)
              (conj Ha (conj Hc (conj Hsignals
                 (Hsame _ _ _ _ _ _ _ Hcall')))))).
Defined.

(** A country code of six letters, a registry that cannot be reached for
    the root, and one that cannot be reached for the timestamp. *)
Lemma verify_propagates_upstream_failure_witness :
  (run Sample.world
     (verify Sample.verifier_bad_code Sample.proof Sample.publicSignals)).2
  = Throw (Error "Invalid country code")
  /\ (run Sample.world_without_root
        (verify Sample.verifier Sample.proof Sample.publicSignals)).2
     = Throw Sample.unreachable
  /\ (run Sample.world_without_timestamp
        (verify Sample.verifier Sample.proof Sample.publicSignals)).2
     = Throw Sample.unreachable.
Proof.
  split; [| split].
  - apply verify_propagates_upstream_failure.
    left. vm_compute. reflexivity.
  - apply verify_propagates_upstream_failure.
    right; left. exists (registryContract Sample.verifier).
    vm_compute. left; reflexivity.
  - apply verify_propagates_upstream_failure.
    right; right.
    exists (registryContract Sample.verifier), (JBigInt 999).
    vm_compute. right; left; reflexivity.
Defined.

(** Age 18 is accepted and reaches the request; 0, 101 and Infinity are
    refused. *)
Lemma setMinimumAge_spec_witness :
  let self' :=
    set_minimumAge {| enabled := true; value := "18" |} Sample.verifier in
  setMinimumAge (Number_of_Z 18) Sample.verifier = Return self'
  /\ minimumAge self' = {| enabled := true; value := "18" |}
  /\ VcAndDiscloseHubProof.olderThanEnabled (Sample.payload self') = true
  /\ VcAndDiscloseHubProof.olderThan (Sample.payload self') = "18"
  /\ (exists e, setMinimumAge (Number_of_Z 0) Sample.verifier = Throw e)
  /\ (exists e, setMinimumAge (Number_of_Z 101) Sample.verifier = Throw e)
  /\ (exists e, setMinimumAge (Infinity false) Sample.verifier = Throw e).
Proof.
  set (self' :=
         set_minimumAge {| enabled := true; value := "18" |} Sample.verifier).
  assert (Hset : setMinimumAge (Number_of_Z 18) Sample.verifier = Return self').
  { vm_compute. reflexivity. }
  assert (Hcall :
            In (CalledVerifyAll (verifyAllContract self')
                  (JBigInt 1700000000) (Sample.payload self')
                  [0; 1; 2; 3; 4; 5; 6; 7] (Return Sample.response))
               (run Sample.world
                  (verify self' Sample.proof Sample.publicSignals)).1).
  { vm_compute. right; right; left; reflexivity. }
  destruct (setMinimumAge_spec (Number_of_Z 18) Sample.verifier)
    as [_ Hreturns].
  destruct (Hreturns self' Hset) as (Hage & _ & Hrequest).
  destruct (Hrequest _ _ _ _ _ _ _ _ Hcall) as [Henabled Hvalue].
  split; [exact Hset |]. split; [exact Hage |].
  split; [exact Henabled |]. split; [exact Hvalue |].
  split; [| split].
  - apply (setMinimumAge_spec (Number_of_Z 0) Sample.verifier).
    left. vm_compute. discriminate.
  - apply (setMinimumAge_spec (Number_of_Z 101) Sample.verifier).
    right. vm_compute. reflexivity.
  - apply (setMinimumAge_spec (Infinity false) Sample.verifier).
    exact I.
Defined.

(** A second call replaces the list of the first; forty-one codes are
    refused. *)
Lemma excludeCountries_spec_witness :
  let before := Sample.configured (excludeCountries ["USA"] Sample.verifier) in
  let after :=
    set_excludedCountries {| enabled := true; value := ["FRA"; "DEU"] |}
      before in
  excludedCountries before = {| enabled := true; value := ["USA"] |}
  /\ excludeCountries ["FRA"; "DEU"] before = Return after
  /\ excludedCountries after = {| enabled := true; value := ["FRA"; "DEU"] |}
  /\ (exists e,
        excludeCountries (replicate 41 "FRA") Sample.verifier = Throw e).
Proof.
  set (before := Sample.configured (excludeCountries ["USA"] Sample.verifier)).
  set (after :=
         set_excludedCountries {| enabled := true; value := ["FRA"; "DEU"] |}
           before).
  assert (Hset : excludeCountries ["FRA"; "DEU"] before = Return after).
  { vm_compute. reflexivity. }
  destruct (excludeCountries_spec ["FRA"; "DEU"] before) as [_ Hreturns].
  destruct (Hreturns after Hset) as [Hvalue _].
  split; [reflexivity |]. split; [exact Hset |]. split; [exact Hvalue |].
  apply (excludeCountries_spec (replicate 41 "FRA") Sample.verifier).
  vm_compute. lia.
Defined.

(** A user identifier that is not a number: both Registry calls are made,
    the Verifier is not called. *)
Lemma verify_user_identifier_failure_witness :
  run Sample.world
    (verify Sample.verifier Sample.proof Sample.publicSignals_bad_user)
  = ([CalledRoot (registryContract Sample.verifier) (Return (JBigInt 999));
      CalledRootTimestamps (registryContract Sample.verifier) (JBigInt 999)
        (Return (JBigInt 1700000000))],
     Throw
       (JError "SyntaxError" "Cannot convert not-a-number to a BigInt")).
Proof.
  apply (verify_user_identifier_failure Sample.world Sample.verifier
           Sample.proof Sample.publicSignals_bad_user
           (registryContract Sample.verifier)).
  - vm_compute. right; left; reflexivity.
  - left. vm_compute. reflexivity.
Defined.

(** A [b] of one row is refused before any call; rows of one element are
    sent with [undefined] in front. *)
Lemma verify_b_shape_witness :
  (exists message,
     run Sample.world
       (verify Sample.verifier Sample.proof_one_row Sample.publicSignals)
     = ([], Throw (TypeError message)))
  /\ VcAndDiscloseProof.b
       (VcAndDiscloseHubProof.vcAndDiscloseProof
          (vcAndDiscloseHubProof Sample.verifier (JArray [])
             Sample.proof_short_rows JUndefined (JString "3") JUndefined
             (JString "5") Sample.publicSignals))
     = JArray [JArray [JUndefined; JString "3"];
               JArray [JUndefined; JString "5"]].
Proof.
  destruct (verify_b_shape Sample.world Sample.verifier Sample.proof_one_row
              Sample.publicSignals) as [Hrefused _].
  destruct (verify_b_shape Sample.world Sample.verifier
              Sample.proof_short_rows Sample.publicSignals) as [_ Hsent].
  split.
  - apply (Hrefused (JArray [])); [vm_compute; reflexivity |].
    right. exists [JArray [JString "3"; JString "4"]].
    split; [reflexivity | vm_compute; lia].
  - apply (Hsent [JString "3"] [JString "5"] []
             (verifyAllContract Sample.verifier) (JBigInt 1700000000)
             _ [0; 1; 2; 3; 4; 5; 6] (Return Sample.response));
      [reflexivity |].
    vm_compute. right; right; left; reflexivity.
Defined.

(** The credential subject of scenario A. *)
Lemma verify_credential_subject_witness :
  let subject :=
    SelfVerificationResult.credentialSubject Sample.attestation in
  dom subject = list_to_set credential_subject_keys
  /\ subject !! "merkle_root" = Some (JString "999")
  /\ subject !! "current_date" = Some (JString "2025-01-01T00:00:00.000Z")
  /\ subject !! "nationality" = Some (JString "FRA")
  /\ subject !! "older_than" = Some (JString "18")
  /\ subject !! "passport_no_ofac" = Some (JBoolean true)
  /\ subject !! "name_and_dob_ofac" = Some (JBoolean false)
  /\ subject !! "name_and_yob_ofac" = Some (JBoolean true).
Proof.
  assert (Hcall :
            In (CalledVerifyAll (verifyAllContract Sample.verifier)
                  (JBigInt 1700000000) (Sample.payload Sample.verifier)
                  [0; 1; 2; 3; 4; 5; 6] (Return Sample.response))
               (run Sample.world
                  (verify Sample.verifier Sample.proof
                     Sample.publicSignals)).1).
  { vm_compute. right; right; left; reflexivity. }
  assert (Hsettled :
            (run Sample.world
               (verify Sample.verifier Sample.proof Sample.publicSignals)).2
            = Return Sample.attestation).
  { vm_compute. reflexivity. }
  destruct (verify_credential_subject _ _ _ _ _ _ _ _ _ _ Hcall Hsettled)
    as (Hdom & Hroot & _ & Hdate & _ & _ & _ & Hnat & _ & _ & _ & Hold
        & Hpass & Hdob & Hyob).
  exact (conj Hdom (conj Hroot (conj Hdate (conj Hnat (conj Hold
           (conj Hpass (conj Hdob Hyob))))))).
Defined.

(** What scenario A echoes. *)
Lemma verify_outcome_echo_witness :
  let o := Sample.attestation in
  SelfVerificationResult.userId o = "42"
  /\ SelfVerificationResult.application o = scope Sample.verifier
  /\ SelfVerificationResult.nullifier o = JString "555"
  /\ ProofValue.proof (SelfVerificationResult.proof o) = Sample.proof
  /\ ProofValue.publicSignals (SelfVerificationResult.proof o)
     = Sample.publicSignals
  /\ SelfVerificationResult.error o = JString "".
Proof.
  assert (Hcall :
            In (CalledVerifyAll (verifyAllContract Sample.verifier)
                  (JBigInt 1700000000) (Sample.payload Sample.verifier)
                  [0; 1; 2; 3; 4; 5; 6] (Return Sample.response))
               (run Sample.world
                  (verify Sample.verifier Sample.proof
                     Sample.publicSignals)).1).
  { vm_compute. right; right; left; reflexivity. }
  assert (Hsettled :
            (run Sample.world
               (verify Sample.verifier Sample.proof Sample.publicSignals)).2
            = Return Sample.attestation).
  { vm_compute. reflexivity. }
  destruct (verify_outcome_echo _ _ _ _ _ _ _ _ _ _ Hcall Hsettled)
    as (_ & Happ & Hnull & Hproof & Hsignals & Herror).
  exact (conj eq_refl (conj Happ (conj Hnull (conj Hproof
           (conj Hsignals Herror))))).
Defined.

(** Scenario E: two flags set, nine fields. *)
Lemma verify_request_consistent_witness :
  let hub := Sample.payload Sample.verifier_age_ofac in
  VcAndDiscloseHubProof.olderThanEnabled hub = true
  /\ exists passportNo nameDob nameYob : bool,
       VcAndDiscloseHubProof.ofacEnabled hub = [passportNo; nameDob; nameYob]
       /\ [0; 1; 2; 3; 4; 5; 6; 7; 8]
          = requested_fields (VcAndDiscloseHubProof.olderThanEnabled hub)
              passportNo nameDob nameYob
       /\ length [0; 1; 2; 3; 4; 5; 6; 7; 8] = 7 + enabled_flags hub.
Proof.
  split; [reflexivity |].
  apply (verify_request_consistent Sample.world Sample.verifier_age_ofac
           Sample.proof Sample.publicSignals
           (verifyAllContract Sample.verifier_age_ofac) (JBigInt 1700000000)
           _ _ (Return Sample.response)).
  vm_compute. right; right; left; reflexivity.
Defined.

(** Two codes reach the request packed; a code of six letters is accepted
    by the setter and refused by every later [verify]. *)
Lemma excludeCountries_reaches_request_witness :
  let self' :=
    set_excludedCountries {| enabled := true; value := ["FRA"; "DEU"] |}
      Sample.verifier in
  let hub :=
    vcAndDiscloseHubProof self' (JArray [JString "FRA"; JString "DEU"])
      Sample.proof (JString "4") (JString "3") (JString "6") (JString "5")
      Sample.publicSignals in
  excludeCountries ["FRA"; "DEU"] Sample.verifier = Return self'
  /\ VcAndDiscloseHubProof.forbiddenCountriesEnabled hub = true
  /\ packForbiddenCountriesList ["FRA"; "DEU"]
     = Return (VcAndDiscloseHubProof.forbiddenCountriesListPacked hub)
  /\ excludeCountries ["FRANCE"] Sample.verifier
     = Return Sample.verifier_bad_code
  /\ run Sample.world
       (verify Sample.verifier_bad_code Sample.proof Sample.publicSignals)
     = ([], Throw (Error "Invalid country code")).
Proof.
  cbv zeta.
  destruct (excludeCountries_reaches_request ["FRA"; "DEU"] Sample.verifier
              _ eq_refl) as [Hsent _].
  destruct (excludeCountries_reaches_request ["FRANCE"] Sample.verifier
              _ eq_refl) as [_ Hrefused].
  split; [reflexivity |].
  split; [| split; [| split; [reflexivity |]]].
  - apply (Hsent Sample.world Sample.proof Sample.publicSignals
             (verifyAllContract Sample.verifier) (JBigInt 1700000000)
             _ [0; 1; 2; 3; 4; 5; 6] (Return Sample.response)).
    vm_compute. right; right; left; reflexivity.
  - apply (Hsent Sample.world Sample.proof Sample.publicSignals
             (verifyAllContract Sample.verifier) (JBigInt 1700000000)
             _ [0; 1; 2; 3; 4; 5; 6] (Return Sample.response)).
    vm_compute. right; right; left; reflexivity.
  - apply Hrefused. vm_compute. reflexivity.
Defined.

(** After scenario E, one refused call and two accepted ones: nothing that
    was enabled is lost, and the nine fields are still requested. *)
Lemma configure_never_disables_witness :
  let s :=
    configure
      [CallSetMinimumAge (Number_of_Z 0); CallSetNationality "USA";
       CallEnableNameAndYobOfacCheck]
      Sample.verifier_age_ofac in
  enabled (minimumAge s) = true
  /\ passportNoOfac s = true
  /\ sublist [0; 1; 2; 3; 4; 5; 6; 7; 8] (types s).
Proof.
  destruct (configure_never_disables
              [CallSetMinimumAge (Number_of_Z 0); CallSetNationality "USA";
               CallEnableNameAndYobOfacCheck]
              Sample.verifier_age_ofac)
    as (Hage & _ & _ & Hpass & _ & _ & Hfields).
  exact (conj (Hage eq_refl) (conj (Hpass eq_refl) Hfields)).
Defined.

(** A minimum age and an exclusion list, in either order. *)
Lemma setters_commute_witness :
  after (CallExcludeCountries ["FRA"])
    (after (CallSetMinimumAge (Number_of_Z 21)) Sample.verifier)
  = after (CallSetMinimumAge (Number_of_Z 21))
      (after (CallExcludeCountries ["FRA"]) Sample.verifier).
Proof.
  apply setters_commute. vm_compute. lia.
Defined.

(** Age 30 after age 21 leaves 30; age 0 after age 21 leaves 21. *)
Lemma setters_last_call_wins_witness :
  minimumAge
    (after (CallSetMinimumAge (Number_of_Z 30))
       (after (CallSetMinimumAge (Number_of_Z 21)) Sample.verifier))
  = {| enabled := true; value := "30" |}
  /\ minimumAge
       (after (CallSetMinimumAge (Number_of_Z 0))
          (after (CallSetMinimumAge (Number_of_Z 21)) Sample.verifier))
     = {| enabled := true; value := "21" |}.
Proof.
  destruct (setters_last_call_wins (CallSetMinimumAge (Number_of_Z 21))
              (CallSetMinimumAge (Number_of_Z 30)) Sample.verifier eq_refl)
    as [Haccepted _].
  destruct (setters_last_call_wins (CallSetMinimumAge (Number_of_Z 21))
              (CallSetMinimumAge (Number_of_Z 0)) Sample.verifier eq_refl)
    as [_ Hrefused].
  split.
  - rewrite Haccepted; [reflexivity |].
    eexists. vm_compute. reflexivity.
  - rewrite Hrefused; [reflexivity |].
    eexists. vm_compute. reflexivity.
Defined.

(** The sample verifier after six calls, two of them refused. *)
Lemma constructed_invariant_witness :
  let s := configure Sample.calls Sample.verifier in
  hashEndpointWithScope "https://example.org/api/verify" "my-app"
  = Return (scope s)
  /\ excludedCountries s = {| enabled := true; value := ["FRA"; "DEU"] |}
  /\ length (value (excludedCountries s)) <= 40
  /\ minimumAge s = {| enabled := true; value := "21" |}
  /\ attestationId s = Number_of_Z 1.
Proof.
  assert (Hnew :
            constructor "my-app" "https://example.org/api/verify" "uuid"
              false
            = Return Sample.verifier).
  { vm_compute. reflexivity. }
  destruct (constructed_invariant _ _ _ _ _ Sample.calls Hnew)
    as (Hscope & Hid & _ & Hlength & _).
  exact (conj Hscope (conj eq_refl (conj Hlength (conj eq_refl Hid)))).
Defined.

(** With [mockPassport] the calls go to the staging contracts on the
    testnet node. *)
Lemma constructed_network_witness :
  registryContract Sample.verifier_staging
  = {| target := "0xregistry-staging";
       rpcUrl := "https://alfajores-forno.celo-testnet.org" |}
  /\ verifyAllContract Sample.verifier_staging
     = {| target := "0xverifyall-staging";
          rpcUrl := "https://alfajores-forno.celo-testnet.org" |}
  /\ Forall (on_contracts_of Sample.verifier_staging)
       (run Sample.world
          (verify (configure Sample.calls Sample.verifier_staging)
             Sample.proof Sample.publicSignals)).1.
Proof.
  assert (Hnew :
            constructor "my-app" "https://example.org/api/verify" "uuid" true
            = Return Sample.verifier_staging).
  { vm_compute. reflexivity. }
  exact (constructed_network _ _ _ _ _ Sample.calls Sample.world
           Sample.proof Sample.publicSignals Hnew).
Defined.

(** The first request of the sample verifier. *)
Lemma constructed_first_request_witness :
  let hub := Sample.payload Sample.verifier in
  [0; 1; 2; 3; 4; 5; 6] = mandatory_fields
  /\ VcAndDiscloseHubProof.olderThanEnabled hub = false
  /\ VcAndDiscloseHubProof.olderThan hub = "18"
  /\ VcAndDiscloseHubProof.forbiddenCountriesEnabled hub = false
  /\ packForbiddenCountriesList []
     = Return (VcAndDiscloseHubProof.forbiddenCountriesListPacked hub)
  /\ VcAndDiscloseHubProof.ofacEnabled hub = [false; false; false].
Proof.
  assert (Hnew :
            constructor "my-app" "https://example.org/api/verify" "uuid"
              false
            = Return Sample.verifier).
  { vm_compute. reflexivity. }
  assert (Hcall :
            In (CalledVerifyAll (verifyAllContract Sample.verifier)
                  (JBigInt 1700000000) (Sample.payload Sample.verifier)
                  [0; 1; 2; 3; 4; 5; 6] (Return Sample.response))
               (run Sample.world
                  (verify Sample.verifier Sample.proof
                     Sample.publicSignals)).1).
  { vm_compute. right; right; left; reflexivity. }
  exact (constructed_first_request _ _ _ _ _ _ _ _ _ _ _ _ _ Hnew Hcall).
Defined.

(** Age 21. *)
Lemma setMinimumAge_whole_age_witness :
  exists self' : SelfBackendVerifier,
    setMinimumAge (Number_of_Z 21) Sample.verifier = Return self'
    /\ minimumAge self' = {| enabled := true; value := "21" |}
    /\ Z.of_int <$> NilZero.int_of_string (value (minimumAge self'))
       = Some 21%Z.
Proof.
  destruct (setMinimumAge_whole_age 21 Sample.verifier ltac:(lia))
    as (self' & Hset & Hage & Hback & _).
  exists self'. exact (conj Hset (conj Hage Hback)).
Defined.

End Witnesses.
